(** * EditorConfig for VS Code: settings translation, save-time transforms
      and the document-to-config cache.

    A shallow embedding of the extension's TypeScript sources
    ([Utils], the two save-time transforms, [DocumentWatcher] and the two
    variants of [generateEditorConfig]) together with the properties the
    specification states about them. *)

From Stdlib Require Import ZArith NArith List Bool Ascii Sorted Lia.
From stdpp Require Import gmap strings list fin_maps.

Local Open Scope Z_scope.

(* ===================================================================== *)
(** ** JavaScript values *)
(* ===================================================================== *)

Module Js.

(** A JavaScript string is a sequence of UTF-16 code units. *)
Definition codeunit := N.
Abbreviation jsstring := (list N).

(** The code units of an ASCII literal of the source. *)
Definition js (s : string) : jsstring :=
  map Ascii.N_of_ascii (String.list_ascii_of_string s).

(** Objects that are reachable only through the prototype chain of an
    object literal: [Object.prototype] itself (as [__proto__]) and its
    function-valued members. *)
Inductive HostObject :=
| ObjectPrototype
| BuiltinFunction (name : string).

(** The values the extension handles.  A number is an integer (tab sizes
    and column counts; the doubles represent them exactly up to
    [MAX_SAFE_INTEGER]) or [NaN]. *)
Inductive JsVal :=
| JUndefined
| JNull
| JBool (b : bool)
| JNum (z : Z)
| JNaN
| JStr (s : jsstring)
| JObj (o : HostObject).

#[global] Instance HostObject_eq_dec : EqDecision HostObject.
Proof. solve_decision. Defined.

#[global] Instance JsVal_eq_dec : EqDecision JsVal.
Proof. solve_decision. Defined.

(** An object is a finite map from property names to values. *)
Abbreviation JsObject := (gmap (list N) JsVal).

(** [ToBoolean]. *)
Definition truthy (v : JsVal) : bool :=
  match v with
  | JUndefined | JNull | JNaN => false
  | JBool b => b
  | JNum z => negb (z =? 0)
  | JStr s => match s with [] => false | _ => true end
  | JObj _ => true
  end.

(** [a === b]: equality of type and value, [NaN] differing from itself. *)
Definition strict_eq (a b : JsVal) : bool :=
  match a, b with
  | JNaN, _ | _, JNaN => false
  | _, _ => bool_decide (a = b)
  end.

(** [a || b]. *)
Definition or_else (a b : JsVal) : JsVal := if truthy a then a else b.

(** Names of the function-valued members of [Object.prototype]. *)
Definition objectPrototypeMembers : list string :=
  [ "constructor"; "hasOwnProperty"; "isPrototypeOf"; "propertyIsEnumerable";
    "toLocaleString"; "toString"; "valueOf";
    "__defineGetter__"; "__defineSetter__"; "__lookupGetter__";
    "__lookupSetter__" ]%string.

(** A property read that reaches [Object.prototype]. *)
Definition objectPrototypeGet (k : jsstring) : JsVal :=
  if bool_decide (k = js "__proto__") then JObj ObjectPrototype
  else match List.find (fun m => bool_decide (k = js m)) objectPrototypeMembers with
       | Some m => JObj (BuiltinFunction m)
       | None => JUndefined
       end.

(** [o[k]] for an object created by an object literal (or by [{}]): the
    own property when there is one, the inherited one otherwise. *)
Definition getProp (o : JsObject) (k : jsstring) : JsVal :=
  match o !! k with
  | Some v => v
  | None => objectPrototypeGet k
  end.

(** [o.hasOwnProperty(k)]. *)
Definition hasOwnProperty (o : JsObject) (k : jsstring) : bool :=
  bool_decide (is_Some (o !! k)).

(** *** Numbers and strings *)

Definition digitChar (d : Z) : N := Z.to_N (48 + d).

(** Decimal digits of a natural number, most significant first; [fuel]
    bounds the number of digits. *)
Fixpoint digitsOf (fuel : nat) (n : Z) : jsstring :=
  match fuel with
  | O => []
  | S fuel' =>
      if n <? 10 then [digitChar n]
      else digitsOf fuel' (n / 10) ++ [digitChar (n mod 10)]
  end.

(** [Number.prototype.toString] on an integral number: an optional sign
    and the decimal digits. *)
Definition numberToString (z : Z) : jsstring :=
  if z <? 0 then 45%N :: digitsOf (S (Z.to_nat (- z))) (- z)
  else digitsOf (S (Z.to_nat z)) z.

(** [ToString], as performed by [v + ''] and by a template literal. *)
Definition toString (v : JsVal) : jsstring :=
  match v with
  | JUndefined => js "undefined"
  | JNull => js "null"
  | JBool true => js "true"
  | JBool false => js "false"
  | JNum z => numberToString z
  | JNaN => js "NaN"
  | JStr s => s
  | JObj ObjectPrototype => js "[object Object]"
  | JObj (BuiltinFunction m) =>
      js "function " ++ js m ++ js "() { [native code] }"
  end.

(** White space and line terminators: the characters matched by [\s]
    and skipped by [parseInt]. *)
Definition isWhiteSpace (c : N) : bool :=
  ((9 <=? c) && (c <=? 13) || (c =? 32) || (c =? 160) || (c =? 5760)
   || (8192 <=? c) && (c <=? 8202) || (c =? 8232) || (c =? 8233)
   || (c =? 8239) || (c =? 8287) || (c =? 12288) || (c =? 65279))%N.

Definition isDigit (c : N) : bool := ((48 <=? c) && (c <=? 57))%N.

Fixpoint skipWhiteSpace (s : jsstring) : jsstring :=
  match s with
  | c :: r => if isWhiteSpace c then skipWhiteSpace r else s
  | [] => []
  end.

(** The value of the longest prefix of decimal digits, accumulated from
    the left. *)
Fixpoint parseDigits (acc : Z) (s : jsstring) : Z :=
  match s with
  | c :: r => if isDigit c then parseDigits (acc * 10 + (Z.of_N c - 48)) r else acc
  | [] => acc
  end.

Definition startsWithDigit (s : jsstring) : bool :=
  match s with c :: _ => isDigit c | [] => false end.

(** [parseInt(s, 10)].  The value is the integer the digits denote; it
    is the number JavaScript returns as long as that integer is at most
    [MAX_SAFE_INTEGER] in absolute value. *)
Definition parseInt10 (s : jsstring) : JsVal :=
  let t := skipWhiteSpace s in
  let '(sign, u) :=
    match t with
    | 45%N :: r => (-1, r)
    | 43%N :: r => (1, r)
    | _ => (1, t)
    end in
  if startsWithDigit u then JNum (sign * parseDigits 0 u) else JNaN.

(** [String.prototype.toLowerCase] on the ASCII range.  The results the
    sources compare against ([cr], [crlf] and the members of
    [Object.prototype]) contain no letter that a character outside ASCII
    lowers to, so the outcome of those comparisons is that of the full
    Unicode mapping. *)
Definition lowerChar (c : N) : N :=
  if ((65 <=? c) && (c <=? 90))%N then (c + 32)%N else c.

Definition toLowerCase (s : jsstring) : jsstring := map lowerChar s.

End Js.

Import Js.

(* ===================================================================== *)
(** ** Settings translation: [Utils] *)
(* ===================================================================== *)

(** Property names of [editorconfig.knownProps]. *)
Definition indent_style : jsstring := js "indent_style".
Definition indent_size : jsstring := js "indent_size".
Definition tab_width : jsstring := js "tab_width".
Definition end_of_line : jsstring := js "end_of_line".
Definition insert_final_newline : jsstring := js "insert_final_newline".
Definition trim_trailing_whitespace : jsstring := js "trim_trailing_whitespace".

(** [interface EditorSettings]; also the shape of the object that
    [fromEditorConfig] returns and that is assigned to
    [textEditor.options]. *)
Record EditorSettings := mkSettings {
  tabSize : JsVal;
  insertSpaces : JsVal
}.

#[global] Instance EditorSettings_eq_dec : EqDecision EditorSettings.
Proof. solve_decision. Defined.

Module Utils.

(** [Utils.fromEditorConfig]. *)
Definition fromEditorConfig (config : JsObject) (defaults : EditorSettings)
  : EditorSettings :=
  {| insertSpaces :=
       if truthy (getProp config indent_style)
       then JBool (negb (strict_eq (getProp config indent_style) (JStr (js "tab"))))
       else insertSpaces defaults;
     tabSize :=
       or_else (getProp config tab_width)
         (or_else (getProp config indent_size) (tabSize defaults)) |}.

(** [Utils.resolveTabSize]. *)
Definition resolveTabSize (tabSize : JsVal) : JsVal :=
  if strict_eq tabSize (JStr (js "auto")) then JNum 4
  else parseInt10 (toString tabSize).

(** [Utils.toEditorConfig]: the [switch] compares with [===]. *)
Definition toEditorConfig (options : EditorSettings) : JsObject :=
  let result : JsObject := ∅ in
  if strict_eq (insertSpaces options) (JBool true) then
    let result := <[indent_style := JStr (js "space")]> result in
    <[indent_size := resolveTabSize (tabSize options)]> result
  else if strict_eq (insertSpaces options) (JBool false)
          || strict_eq (insertSpaces options) (JStr (js "auto")) then
    let result := <[indent_style := JStr (js "tab")]> result in
    <[tab_width := resolveTabSize (tabSize options)]> result
  else result.

End Utils.

(* ===================================================================== *)
(** ** Documents, edits and the save-time transforms *)
(* ===================================================================== *)

(** A [TextDocument]: the resource it stands for, its path, whether it
    is untitled, and its lines ([lineCount] is their number,
    [lineAt(i).text] the [i]-th of them).  The host keeps one document
    object per resource: two documents are the same object ([===]) when
    they have the same [uri]; two resources of different schemes may
    share a [fileName]. *)
Record TextDocument := {
  uri : jsstring;
  fileName : jsstring;
  isUntitled : bool;
  lines : list jsstring
}.

(** A document whose resource is named by its path. *)
Definition mkDocument (fileName : jsstring) (isUntitled : bool)
    (lines : list jsstring) : TextDocument :=
  {| uri := fileName; fileName := fileName; isUntitled := isUntitled;
     lines := lines |}.

Definition lineCount (d : TextDocument) : nat := length (lines d).

(** [lineAt(i).text]; the sources read lines below [lineCount] only. *)
Definition lineAt (d : TextDocument) (i : nat) : jsstring :=
  default [] (lines d !! i).

(** The operations handed to [editor.edit]: [edit.insert(pos, text)] and
    [edit.delete(range)], positions being (line, character) pairs. *)
Inductive EditOp :=
| EditInsert (line character : nat) (text : JsVal)
| EditDelete (line startCharacter endCharacter : nat).

(** Either a value or a thrown [TypeError]. *)
Inductive Completion (A : Type) :=
| Normal (a : A)
| ThrowTypeError.
Arguments Normal {A} a.
Arguments ThrowTypeError {A}.

(** The object literal indexed by [newline]. *)
Definition lineEndings : JsObject :=
  <[js "crlf" := JStr [13; 10]%N]> (<[js "cr" := JStr [13]%N]> ∅).

(** [newline(editorconfig)]: [end_of_line.toLowerCase()] throws unless
    [end_of_line] is a string. *)
Definition newline (editorconfig : JsObject) : Completion JsVal :=
  match getProp editorconfig end_of_line with
  | JStr eol =>
      Normal (or_else (getProp lineEndings (toLowerCase eol)) (JStr [10%N]))
  | _ => ThrowTypeError
  end.

(** [insertFinalNewlineTransform]: [Normal None] is the resolved promise
    of the two early returns, [Normal (Some op)] the edit issued. *)
Definition insertFinalNewlineTransform (editorconfig : JsObject)
    (textDocument : TextDocument) : Completion (option EditOp) :=
  let lineCount := lineCount textDocument in
  if negb (truthy (getProp editorconfig insert_final_newline))
     || bool_decide (lineCount = 0%nat)
  then Normal None
  else
    let lastLineNumber := (lineCount - 1)%nat in
    let lastLineLength := length (lineAt textDocument lastLineNumber) in
    if bool_decide (lastLineLength < 1)%nat then Normal None
    else
      match newline editorconfig with
      | Normal text =>
          Normal (Some (EditInsert lastLineNumber lastLineLength text))
      | ThrowTypeError => ThrowTypeError
      end.

(** The character class [[\s\uFEFF\xA0]]. *)
Definition isTrimClass (c : N) : bool :=
  isWhiteSpace c || (c =? 65279)%N || (c =? 160)%N.

(** Does [/[\s\uFEFF\xA0]+$/] match at the start of [s]: one or more
    characters of the class, up to the end of the input. *)
Definition matchesAtStart (s : jsstring) : bool :=
  match s with
  | [] => false
  | _ => forallb isTrimClass s
  end.

(** [input.replace(/[\s\uFEFF\xA0]+$/g, '')]: the leftmost match is
    searched from the left; it ends at the end of the input, so there is
    no further one. *)
Fixpoint trimTrailingWhitespace (input : jsstring) : jsstring :=
  match input with
  | [] => []
  | c :: rest =>
      if matchesAtStart input then [] else c :: trimTrailingWhitespace rest
  end.

(** The inner [trimLineTrailingWhitespace]: [None] when the line is
    unchanged. *)
Definition trimLineTrailingWhitespace (lineNumber : nat) (text : jsstring)
  : option EditOp :=
  let trimmedLine := trimTrailingWhitespace text in
  if bool_decide (trimmedLine = text) then None
  else Some (EditDelete lineNumber (length trimmedLine) (length text)).

(** [trimTrailingWhitespaceTransform]: the edits issued, in line order.
    [editorTrimsWhitespace] is the host's [files.trimTrailingWhitespace]. *)
Definition trimTrailingWhitespaceTransform (editorTrimsWhitespace : JsVal)
    (editorconfig : JsObject) (textDocument : TextDocument) : list EditOp :=
  if truthy editorTrimsWhitespace
     || negb (truthy (getProp editorconfig trim_trailing_whitespace))
  then []
  else omap id (imap trimLineTrailingWhitespace (lines textDocument)).

(** The host's edit primitive on a deletion inside one line. *)
Definition applyDelete (line startCharacter endCharacter : nat)
    (ls : list jsstring) : list jsstring :=
  alter (fun t => take startCharacter t ++ drop endCharacter t) line ls.

Definition applyTrimEdit (ls : list jsstring) (op : EditOp) : list jsstring :=
  match op with
  | EditDelete l a b => applyDelete l a b ls
  | EditInsert _ _ _ => ls
  end.

(** The document once every edit of a trim pass has settled. *)
Definition afterTrim (edits : list EditOp) (d : TextDocument) : TextDocument :=
  {| uri := uri d; fileName := fileName d; isUntitled := isUntitled d;
     lines := foldl applyTrimEdit (lines d) edits |}.

(* ===================================================================== *)
(** ** The host and the document watcher *)
(* ===================================================================== *)

Record TextEditor := mkEditor {
  editorId : nat;
  document : TextDocument
}.

(** What the extension reads from [window] and [workspace]. *)
Record Host := mkHost {
  textDocuments : list TextDocument;
  visibleTextEditors : list TextEditor;
  activeTextEditor : option TextEditor;
  (** [workspace.getConfiguration('editor')]: [tabSize], [insertSpaces] *)
  editorConfiguration : EditorSettings;
  (** [workspace.getConfiguration('files').get('trimTrailingWhitespace', false)] *)
  filesTrimTrailingWhitespace : JsVal;
  (** whether [path] is [path.win32], as it is on Windows *)
  isWindows : bool
}.

(** The fields of [class DocumentWatcher].  The keys of the map are the
    paths of titled documents.  The map is read as its own entries:
    this is what [this._documentToConfigMap[path]] gives at a path that
    names no member of [Object.prototype] ([namesNoInheritedMember]
    below), as the paths of files do; where a property depends on it,
    that is a hypothesis. *)
Record DocumentWatcher := mkWatcher {
  _documentToConfigMap : gmap (list N) JsObject;
  _defaults : EditorSettings
}.

(** What [applyOnSaveTransformations] did for one document. *)
Inductive PipelineResult :=
| NoConfiguration
| NoEditor
| Pipeline (trimEdits : list EditOp) (finalNewline : Completion (option EditOp))
           (saved : bool).

(** What the extension did, oldest first. *)
Inductive Event :=
| MapCleared
| ConfigStored (path : jsstring) (config : JsObject)
| ParseRejected (path : jsstring)
| StatusBarMessage (text : jsstring)
| OptionsSet (editor : nat) (options : EditorSettings)
| TransformsRun (path : jsstring) (trimEdits : list EditOp)
                (finalNewline : Completion (option EditOp)) (saved : bool).

(** The mutable state: the watcher, the [options] of the editors, and the
    trace. *)
Record World := mkWorld {
  watcher : DocumentWatcher;
  editorOptions : gmap nat EditorSettings;
  trace : list Event
}.

(** A promise returned by [_onDidOpenDocument]: already resolved, or
    waiting for [editorconfig.parse(path)]. *)
Inductive Thenable :=
| Resolved
| AwaitingParse (path : jsstring).

(** The separators of [path.posix] and of [path.win32]. *)
Definition isPosixSeparator (c : N) : bool := (c =? 47)%N.

Definition isWin32Separator (c : N) : bool := (c =? 47)%N || (c =? 92)%N.

Section Basename.

Variable isSeparator : N -> bool.

Fixpoint dropSeparators (s : jsstring) : jsstring :=
  match s with
  | c :: r => if isSeparator c then dropSeparators r else s
  | [] => []
  end.

Fixpoint untilSeparator (s : jsstring) : jsstring :=
  match s with
  | c :: r => if isSeparator c then [] else c :: untilSeparator r
  | [] => []
  end.

(** The last segment of a path, scanned from its end: trailing
    separators are skipped, and the segment ends at the separator before
    it. *)
Definition lastSegment (p : jsstring) : jsstring :=
  rev (untilSeparator (dropSeparators (rev p))).

End Basename.

(** [path.win32.basename] leaves a drive prefix (a letter and a colon)
    out of the scan. *)
Definition dropDrive (p : jsstring) : jsstring :=
  match p with
  | drive :: 58%N :: rest =>
      if ((65 <=? drive) && (drive <=? 90) || (97 <=? drive) && (drive <=? 122))%N
      then rest else p
  | _ => p
  end.

(** [path.basename], without extension argument: that of [path.win32]
    on Windows and that of [path.posix] elsewhere. *)
Definition basename (win32 : bool) (p : jsstring) : jsstring :=
  if win32 then lastSegment isWin32Separator (dropDrive p)
  else lastSegment isPosixSeparator p.

Definition withMap (m : gmap (list N) JsObject) (w : World) : World :=
  {| watcher := {| _documentToConfigMap := m;
                   _defaults := _defaults (watcher w) |};
     editorOptions := editorOptions w; trace := trace w |}.

Definition emit (e : Event) (w : World) : World :=
  {| watcher := watcher w; editorOptions := editorOptions w;
     trace := trace w ++ [e] |}.

(** [getSettingsForDocument], for a [fileName] that names no member of
    [Object.prototype]: [None] is [undefined]. *)
Definition getSettingsForDocument (w : World) (document : TextDocument)
  : option JsObject :=
  _documentToConfigMap (watcher w) !! fileName document.

Definition getDefaultSettings (w : World) : EditorSettings :=
  _defaults (watcher w).

(** [applyEditorConfigToTextEditor]. *)
Definition applyEditorConfigToTextEditor (textEditor : option TextEditor)
    (w : World) : World :=
  match textEditor with
  | None => w
  | Some textEditor =>
      match getSettingsForDocument w (document textEditor) with
      | None => w
      | Some editorconfig =>
          let newOptions :=
            Utils.fromEditorConfig editorconfig (getDefaultSettings w) in
          let spacesOrTabs :=
            if strict_eq (insertSpaces newOptions) (JStr (js "auto"))
            then js "auto"
            else if truthy (insertSpaces newOptions) then js "Spaces"
                 else js "Tabs" in
          let w := emit (StatusBarMessage
                     (js "EditorConfig: " ++ spacesOrTabs ++ js ": "
                      ++ toString (tabSize newOptions))) w in
          emit (OptionsSet (editorId textEditor) newOptions)
            {| watcher := watcher w;
               editorOptions :=
                 <[editorId textEditor := newOptions]> (editorOptions w);
               trace := trace w |}
      end
  end.

(** [findEditor]: the first visible editor whose document is the given
    one ([editor.document === textDocument]). *)
Definition findEditor (visible : list TextEditor) (textDocument : TextDocument)
  : option TextEditor :=
  List.find (fun editor =>
    bool_decide (uri (document editor) = uri textDocument)) visible.

(** The rewrite in the callback of [editorconfig.parse]. *)
Definition normalizeIndentSize (config : JsObject) : JsObject :=
  if strict_eq (getProp config indent_size) (JStr (js "tab"))
  then <[indent_size := getProp config tab_width]> config
  else config.

Section Watcher.

(** The host, and the external parser: [parse path] is the configuration
    [editorconfig.parse(path)] resolves to, [None] when it rejects. *)
Variable host : Host.
Variable parse : jsstring -> option JsObject.

(** The transform chain of [applyOnSaveTransformations]: the newline
    transform reads the document as the trim pass left it, and the
    document is saved when neither step threw. *)
Definition saveTransformations (w : World) (textDocument : TextDocument)
  : PipelineResult :=
  match getSettingsForDocument w textDocument with
  | None => NoConfiguration
  | Some editorconfig =>
      match findEditor (visibleTextEditors host) textDocument with
      | None => NoEditor
      | Some editor =>
          let trims :=
            trimTrailingWhitespaceTransform (filesTrimTrailingWhitespace host)
              editorconfig textDocument in
          let final :=
            insertFinalNewlineTransform editorconfig
              (afterTrim trims textDocument) in
          Pipeline trims final
            (match final with Normal _ => true | ThrowTypeError => false end)
      end
  end.

(** [applyOnSaveTransformations]. *)
Definition applyOnSaveTransformations (textDocument : TextDocument)
    (w : World) : World :=
  match saveTransformations w textDocument with
  | Pipeline trims final saved =>
      emit (TransformsRun (fileName textDocument) trims final saved) w
  | NoConfiguration | NoEditor => w
  end.

(** The synchronous part of [_onDidOpenDocument], the map being read at
    a path that names no member of [Object.prototype]. *)
Definition _onDidOpenDocument (document : TextDocument) (w : World)
  : World * Thenable :=
  if isUntitled document then (w, Resolved)
  else
    let path := fileName document in
    match _documentToConfigMap (watcher w) !! path with
    | Some _ =>
        (applyEditorConfigToTextEditor (activeTextEditor host) w, Resolved)
    | None => (w, AwaitingParse path)
    end.

(** The callback of [editorconfig.parse(path).then]. *)
Definition onParsed (path : jsstring) (config : JsObject) (w : World) : World :=
  let config := normalizeIndentSize config in
  let w := emit (ConfigStored path config)
             (withMap (<[path := config]> (_documentToConfigMap (watcher w))) w) in
  applyEditorConfigToTextEditor (activeTextEditor host) w.

(** One pending parse settles; the boolean tells whether it fulfilled. *)
Definition settle (path : jsstring) (w : World) : World * bool :=
  match parse path with
  | Some config => (onParsed path config w, true)
  | None => (emit (ParseRejected path) w, false)
  end.

(** [workspace.textDocuments.map(document => this._onDidOpenDocument(document))] *)
Fixpoint openAll (documents : list TextDocument) (w : World)
  : World * list Thenable :=
  match documents with
  | [] => (w, [])
  | d :: rest =>
      let '(w1, p) := _onDidOpenDocument d w in
      let '(w2, ps) := openAll rest w1 in
      (w2, p :: ps)
  end.

(** The synchronous part of [_rebuildConfigMap]. *)
Definition _rebuildConfigMap (w : World) : World * list Thenable :=
  openAll (textDocuments host) (emit MapCleared (withMap ∅ w)).

Definition pendingPaths (promises : list Thenable) : list jsstring :=
  omap (fun p => match p with AwaitingParse path => Some path | Resolved => None end)
       promises.

(** The state of a [Promise.all] over pending parses: the paths still
    awaited, and whether one has rejected. *)
Record Aggregate := mkAggregate {
  awaited : list jsstring;
  rejected : bool
}.

(** The event loop settles the pending parses one at a time, in an order
    the extension does not control: each element of [choices] picks the
    next one among those still awaited. *)
Fixpoint settleAll (choices : list nat) (a : Aggregate) (w : World)
  : World * Aggregate :=
  match choices with
  | [] => (w, a)
  | c :: rest =>
      match awaited a with
      | [] => (w, a)
      | _ =>
          let i := (c mod length (awaited a))%nat in
          match awaited a !! i with
          | None => (w, a)
          | Some path =>
              let '(w1, ok) := settle path w in
              settleAll rest
                {| awaited := delete i (awaited a);
                   rejected := rejected a || negb ok |} w1
          end
      end
  end.

(** [Promise.all(...)] is fulfilled when nothing is awaited and nothing
    rejected. *)
Definition fulfilled (a : Aggregate) : bool :=
  bool_decide (awaited a = []) && negb (rejected a).

(** The [onDidSaveTextDocument] handler. *)
Definition onDidSaveTextDocument (choices : list nat)
    (savedDocument : TextDocument) (w : World) : World :=
  if bool_decide (basename (isWindows host) (fileName savedDocument)
                  = js ".editorconfig") then
    let '(w1, promises) := _rebuildConfigMap w in
    let '(w2, a) :=
      settleAll choices {| awaited := pendingPaths promises; rejected := false |} w1 in
    if fulfilled a then applyOnSaveTransformations savedDocument w2 else w2
  else applyOnSaveTransformations savedDocument w.

(** The [onDidChangeActiveTextEditor] handler. *)
Definition onDidChangeActiveTextEditor (textEditor : option TextEditor)
    (w : World) : World * Thenable :=
  match textEditor with
  | None => (w, Resolved)
  | Some textEditor => _onDidOpenDocument (document textEditor) w
  end.

(** [_onConfigChanged]. *)
Definition _onConfigChanged (w : World) : World :=
  {| watcher := {| _documentToConfigMap := _documentToConfigMap (watcher w);
                   _defaults := editorConfiguration host |};
     editorOptions := editorOptions w; trace := trace w |}.

End Watcher.

(* ===================================================================== *)
(** ** [generateEditorConfig], in its two variants *)
(* ===================================================================== *)

(** What the command does to the outside. *)
Inductive Effect :=
| ShowInformationMessage (message : jsstring)
| ShowErrorMessage (message : jsstring)
| WriteFile (path contents : jsstring).

(** A template line [`${setting} = ${settings[setting]}`]. *)
Definition settingLine (settings : JsObject) (setting : jsstring) : jsstring :=
  setting ++ js " = " ++ toString (getProp settings setting).

(** [Array.prototype.join]. *)
Fixpoint join (separator : jsstring) (items : list jsstring) : jsstring :=
  match items with
  | [] => []
  | [x] => x
  | x :: rest => x ++ separator ++ join separator rest
  end.

Definition lf : jsstring := [10%N].

Section Generate.

(** [workspace.rootPath], the [editor] configuration node, whether the
    target exists, and the error of [writeFile] if any. *)
Variable rootPath : JsVal.
Variable editorConfigurationNode : EditorSettings.
Variable targetExists : bool.
Variable writeError : option jsstring.

Definition editorconfigFile : jsstring := toString rootPath ++ js "/.editorconfig".

Definition writeOrReport (alreadyExists : jsstring) (fileContents : jsstring)
  : list Effect :=
  if targetExists then [ShowInformationMessage alreadyExists]
  else WriteFile editorconfigFile fileContents ::
       match writeError with
       | Some err => [ShowErrorMessage err]
       | None => []
       end.

Definition currentSettings : JsObject :=
  Utils.toEditorConfig
    {| insertSpaces := insertSpaces editorConfigurationNode;
       tabSize := tabSize editorConfigurationNode |}.

End Generate.

(** The variant that appends each line and a line feed to a template
    string. *)
Module GenerateConcat.

Definition fileContents (settings : JsObject) : jsstring :=
  foldl (fun fileContents setting =>
           if hasOwnProperty settings setting
           then fileContents ++ settingLine settings setting ++ lf
           else fileContents)
        (js "root = true" ++ lf ++ lf ++ js "[*]" ++ lf)
        [indent_style; indent_size; tab_width].

Definition generateEditorConfig (rootPath : JsVal)
    (editorConfigurationNode : EditorSettings) (targetExists : bool)
    (writeError : option jsstring) : list Effect :=
  if negb (truthy rootPath) then
    [ShowInformationMessage
       (js "Please open a folder before generating an .editorconfig file")]
  else
    writeOrReport rootPath targetExists writeError
      (js "A .editorconfig file already exists in your workspace.")
      (fileContents (currentSettings editorConfigurationNode)).

End GenerateConcat.

(** The variant that pushes each line on an array and joins it with line
    feeds. *)
Module GenerateJoin.

Definition supportedProperties : list jsstring :=
  [indent_style; indent_size; tab_width].

Definition fileContentsLines (settings : JsObject) : list jsstring :=
  foldl (fun fileContents setting =>
           if hasOwnProperty settings setting
           then fileContents ++ [settingLine settings setting]
           else fileContents)
        [js "root = true"; []; js "[*]"]
        supportedProperties.

Definition fileContents (settings : JsObject) : jsstring :=
  join lf (fileContentsLines settings).

Definition generateEditorConfig (rootPath : JsVal)
    (editorConfigurationNode : EditorSettings) (targetExists : bool)
    (writeError : option jsstring) : list Effect :=
  if negb (truthy rootPath) then
    [ShowInformationMessage
       (js "Please open a folder before generating an .editorconfig file")]
  else
    writeOrReport rootPath targetExists writeError
      (js "A .editorconfig file already exists in your workspace.")
      (fileContents (currentSettings editorConfigurationNode)).

End GenerateJoin.

(* ===================================================================== *)
(** ** The specification's wording of the resolution *)
(* ===================================================================== *)

(** [resolveToHostOptions] as the specification words it: a property
    counts as soon as it is present. *)
Definition resolveToHostOptions_spec (config : JsObject)
    (defaults : EditorSettings) : EditorSettings :=
  {| insertSpaces :=
       match config !! indent_style with
       | Some style => JBool (negb (strict_eq style (JStr (js "tab"))))
       | None => insertSpaces defaults
       end;
     tabSize :=
       match config !! tab_width with
       | Some width => width
       | None =>
           match config !! indent_size with
           | Some size => size
           | None => tabSize defaults
           end
       end |}.

(** The properties of an object whose value is truthy. *)
Definition truthyProps (config : JsObject) : JsObject :=
  filter (fun kv => truthy kv.2 = true) config.

(** The largest integer a double represents exactly together with all
    smaller ones. *)
Definition MAX_SAFE_INTEGER : Z := 9007199254740991.

(* ===================================================================== *)
(** ** Vocabulary of the cache properties *)
(* ===================================================================== *)

(** Events of a resolution: a store or a rejection, and the refresh of
    the active editor that follows a store. *)
Definition isResolutionEvent (e : Event) : bool :=
  match e with
  | ConfigStored _ _ | ParseRejected _ | StatusBarMessage _ | OptionsSet _ _ => true
  | MapCleared | TransformsRun _ _ _ _ => false
  end.

(** No stored configuration has the marker [tab] as its [indent_size]. *)
Definition noTabMarker (m : gmap (list N) JsObject) : Prop :=
  forall (path : jsstring) (config : JsObject),
    m !! path = Some config -> getProp config indent_size <> JStr (js "tab").

(** A path that names no member of [Object.prototype]: reading [{}] at
    it gives [undefined]. *)
Definition namesNoInheritedMember (path : jsstring) : Prop :=
  objectPrototypeGet path = JUndefined.

(** The paths of the titled documents, in order. *)
Definition titledPaths (documents : list TextDocument) : list jsstring :=
  omap (fun d => if isUntitled d then None else Some (fileName d)) documents.

(* ===================================================================== *)
(** ** Sample inputs *)
(* ===================================================================== *)

Definition defaults_2_spaces : EditorSettings := mkSettings (JNum 2) (JBool true).

(** [{ tab_width: 0, indent_size: 4 }] *)
Definition config_zero_tab_width : JsObject :=
  <[tab_width := JNum 0]> (<[indent_size := JNum 4]> ∅).

(** [{ insertSpaces: true, tabSize: 4 }] *)
Definition options_spaces_4 : EditorSettings := mkSettings (JNum 4) (JBool true).

(** [{ indent_style: "space", indent_size: 4 }] *)
Definition config_space_4 : JsObject :=
  <[indent_size := JNum 4]> (<[indent_style := JStr (js "space")]> ∅).

(** [{ insert_final_newline: true }], without [end_of_line] *)
Definition config_final_newline_only : JsObject :=
  <[insert_final_newline := JBool true]> ∅.

(** A titled document whose only line is [abc]. *)
Definition document_abc : TextDocument :=
  mkDocument (js "/work/a.txt") false [js "abc"].

(** [{ trim_trailing_whitespace: true }] *)
Definition config_trim : JsObject :=
  <[trim_trailing_whitespace := JBool true]> ∅.

(** A document with trailing blanks on its first and third lines. *)
Definition document_blanks : TextDocument :=
  mkDocument (js "/work/b.txt") false
    [js "let x;  "; js "  y"; [122; 9; 160; 65279]%N].

(** The configuration file itself, an untitled buffer, and a document
    whose resolution fails. *)
Definition document_editorconfig : TextDocument :=
  mkDocument (js "/work/.editorconfig") false
    [js "root = true"; js "[*]"; js "indent_size = tab  "].

Definition document_untitled : TextDocument :=
  mkDocument (js "Untitled-1") true [[]].

Definition document_broken : TextDocument :=
  mkDocument (js "/broken/c.txt") false [js "c"].

(** [{ indent_size: "tab", tab_width: 8, trim_trailing_whitespace: true,
       insert_final_newline: true, end_of_line: "lf" }] *)
Definition config_tab_8 : JsObject :=
  <[indent_size := JStr (js "tab")]>
    (<[tab_width := JNum 8]>
       (<[trim_trailing_whitespace := JBool true]>
          (<[insert_final_newline := JBool true]>
             (<[end_of_line := JStr (js "lf")]> ∅)))).

(** A parser that rejects under [/broken/] and resolves every other path
    to [config_tab_8]. *)
Definition parse_sample (path : jsstring) : option JsObject :=
  if bool_decide (take 8 path = js "/broken/") then None else Some config_tab_8.

Definition editor_1 : TextEditor := mkEditor 1 document_editorconfig.

Definition host_sample : Host :=
  mkHost [document_editorconfig; document_untitled; document_blanks]
         [editor_1] (Some editor_1) defaults_2_spaces (JBool false) false.

Definition host_with_broken : Host :=
  mkHost [document_broken; document_editorconfig; document_blanks]
         [editor_1] (Some editor_1) defaults_2_spaces (JBool false) false.

Definition world_initial : World :=
  mkWorld (mkWatcher ∅ defaults_2_spaces) ∅ [].

(* ===================================================================== *)
(** ** The command of the extension's entry file, and the constructor *)
(* ===================================================================== *)

(** [generateEditorConfig] of the entry file: the statements of the
    concatenating variant, with its own wording of the message shown when
    the file exists. *)
Module Extension.

Definition generateEditorConfig (rootPath : JsVal)
    (editorConfigurationNode : EditorSettings) (targetExists : bool)
    (writeError : option jsstring) : list Effect :=
  if negb (truthy rootPath) then
    [ShowInformationMessage
       (js "Please open a folder before generating an .editorconfig file")]
  else
    writeOrReport rootPath targetExists writeError
      (js "An .editorconfig file already exists in your workspace.")
      (GenerateConcat.fileContents (currentSettings editorConfigurationNode)).

End Extension.

(** The constructor of [DocumentWatcher], after the subscriptions:
    [_rebuildConfigMap()] and then [_onConfigChanged()].  The fields are
    unset before; the defaults are not read until the second call has
    set them. *)
Definition newDocumentWatcher (host : Host)
    (options : gmap nat EditorSettings) : World * list Thenable :=
  let '(w, promises) :=
    _rebuildConfigMap host
      (mkWorld (mkWatcher ∅ (mkSettings JUndefined JUndefined)) options []) in
  (_onConfigChanged host w, promises).

(** The line an edit is addressed to. *)
Definition editLine (op : EditOp) : nat :=
  match op with
  | EditInsert l _ _ => l
  | EditDelete l _ _ => l
  end.

Definition isWriteFile (e : Effect) : bool :=
  match e with
  | WriteFile _ _ => true
  | _ => false
  end.


(** [{ insert_final_newline: true, end_of_line: "CRLF" }] *)
Definition config_crlf : JsObject :=
  <[end_of_line := JStr (js "CRLF")]> (<[insert_final_newline := JBool true]> ∅).

(** A document whose last line holds blanks only. *)
Definition document_blank_tail : TextDocument :=
  mkDocument (js "/work/d.txt") false [js "a"; [32; 9]%N].

(** Another resource with the path of the configuration file: the
    version of it that source control shows. *)
Definition document_same_path : TextDocument :=
  {| uri := js "git:/work/.editorconfig";
     fileName := js "/work/.editorconfig";
     isUntitled := false;
     lines := [js "root = true"] |}.

(** [{ indent_size: "tab", tab_width: "tab" }], what the parser returns
    for a section with [indent_size = tab] and [tab_width = tab]. *)
Definition config_tab_marker : JsObject :=
  <[indent_size := JStr (js "tab")]> (<[tab_width := JStr (js "tab")]> ∅).

Definition parse_tab_marker (path : jsstring) : option JsObject :=
  Some config_tab_marker.

(* ===================================================================== *)
(** ** Properties of the settings translation *)
(* ===================================================================== *)

Section JsFacts.

Lemma getProp_own (o : JsObject) (k : jsstring) :
  objectPrototypeGet k = JUndefined ->
  getProp o k = default JUndefined (o !! k).
Proof.
  intros Hk. unfold getProp. destruct (o !! k); simpl; [reflexivity | exact Hk].
Qed.

Lemma truthyProps_lookup (config : JsObject) (k : jsstring) :
  truthyProps config !! k
  = match config !! k with
    | Some v => if truthy v then Some v else None
    | None => None
    end.
Proof.
  unfold truthyProps.
  destruct (config !! k) as [v|] eqn:Hk.
  - destruct (truthy v) eqn:Hv.
    + apply map_lookup_filter_Some. split; [exact Hk | exact Hv].
    + apply map_lookup_filter_None. right. intros x Hx. simpl.
      rewrite Hk in Hx. injection Hx as <-. rewrite Hv. discriminate.
  - apply map_lookup_filter_None. left. exact Hk.
Qed.

Lemma isDigit_digitChar (d : Z) : 0 <= d < 10 -> isDigit (digitChar d) = true.
Proof.
  intros Hd. unfold isDigit, digitChar.
  apply andb_true_iff. split; apply N.leb_le; lia.
Qed.

Lemma digitChar_value (d : Z) : 0 <= d < 10 -> Z.of_N (digitChar d) - 48 = d.
Proof. intros Hd. unfold digitChar. lia. Qed.

Lemma parseDigits_snoc (s : jsstring) (d acc : Z) :
  0 <= d < 10 ->
  Forall (fun c => isDigit c = true) s ->
  parseDigits acc (s ++ [digitChar d]) = parseDigits acc s * 10 + d.
Proof.
  intros Hd Hs. revert acc.
  induction Hs as [|c r Hc Hr IH]; intros acc; simpl.
  - rewrite isDigit_digitChar by exact Hd. rewrite digitChar_value by exact Hd.
    reflexivity.
  - rewrite Hc. apply IH.
Qed.

Lemma digitsOf_digits (fuel : nat) (n : Z) :
  0 <= n -> Forall (fun c => isDigit c = true) (digitsOf fuel n).
Proof.
  revert n. induction fuel as [|fuel IH]; intros n Hn; simpl.
  - constructor.
  - destruct (n <? 10) eqn:Hlt.
    + apply Z.ltb_lt in Hlt. constructor; [|constructor].
      apply isDigit_digitChar. lia.
    + apply Z.ltb_ge in Hlt. apply Forall_app. split.
      * apply IH. apply Z.div_pos; lia.
      * constructor; [|constructor]. apply isDigit_digitChar.
        apply Z.mod_pos_bound. lia.
Qed.

Lemma digitsOf_nonempty (fuel : nat) (n : Z) : digitsOf (S fuel) n <> [].
Proof.
  simpl. destruct (n <? 10); [discriminate|].
  intros H. apply app_eq_nil in H. destruct H as [_ H]. discriminate.
Qed.

(** Reading back the digits of a number yields the number. *)
Lemma parseDigits_digitsOf (fuel : nat) (n : Z) :
  0 <= n -> (Z.to_nat n < fuel)%nat -> parseDigits 0 (digitsOf fuel n) = n.
Proof.
  revert n. induction fuel as [|fuel IH]; intros n Hn Hf; [lia|].
  simpl. destruct (n <? 10) eqn:Hlt.
  - apply Z.ltb_lt in Hlt. simpl.
    rewrite isDigit_digitChar by lia. rewrite digitChar_value by lia. lia.
  - apply Z.ltb_ge in Hlt.
    assert (Hq : 0 <= n / 10 < n) by (split; [apply Z.div_pos; lia | apply Z.div_lt; lia]).
    rewrite parseDigits_snoc.
    + rewrite IH by lia. pose proof (Z.div_mod n 10). lia.
    + apply Z.mod_pos_bound. lia.
    + apply digitsOf_digits. lia.
Qed.

Lemma isDigit_not_space (c : N) : isDigit c = true -> isWhiteSpace c = false.
Proof.
  unfold isDigit, isWhiteSpace. intros H.
  apply andb_true_iff in H. destruct H as [H1 H2].
  apply N.leb_le in H1. apply N.leb_le in H2.
  repeat (apply orb_false_iff; split);
    try (apply andb_false_iff; (left; apply N.leb_gt; lia) || (right; apply N.leb_gt; lia));
    try (apply N.eqb_neq; lia).
Qed.

(** [parseInt] of the decimal digits of a natural number. *)
Lemma parseInt10_digitsOf (n : Z) :
  0 <= n -> parseInt10 (digitsOf (S (Z.to_nat n)) n) = JNum n.
Proof.
  intros Hn.
  pose proof (digitsOf_digits (S (Z.to_nat n)) n Hn) as Hd.
  pose proof (digitsOf_nonempty (Z.to_nat n) n) as Hne.
  pose proof (parseDigits_digitsOf (S (Z.to_nat n)) n Hn ltac:(lia)) as Hp.
  destruct (digitsOf (S (Z.to_nat n)) n) as [|c r] eqn:E; [congruence|].
  apply Forall_cons in Hd. destruct Hd as [Hc Hr].
  unfold parseInt10. cbn [skipWhiteSpace].
  rewrite (isDigit_not_space c Hc).
  assert (c <> 45%N /\ c <> 43%N) as [H45 H43].
  { unfold isDigit in Hc. apply andb_true_iff in Hc. destruct Hc as [Hc _].
    apply N.leb_le in Hc. lia. }
  assert (Hsel :
    match c :: r with
    | 45%N :: r0 => (-1, r0)
    | 43%N :: r0 => (1, r0)
    | _ => (1, c :: r)
    end = (1, c :: r)).
  { destruct c as [|p]; [reflexivity|].
    do 6 (destruct p as [p|p|]; try reflexivity); congruence. }
  rewrite Hsel. cbn [startsWithDigit]. rewrite Hc. rewrite Hp.
  f_equal. lia.
Qed.

(** [parseInt(z + '', 10)] is [z]. *)
Lemma parseInt10_numberToString (z : Z) : parseInt10 (numberToString z) = JNum z.
Proof.
  unfold numberToString. destruct (z <? 0) eqn:Hz.
  - apply Z.ltb_lt in Hz.
    assert (Hn : 0 <= - z) by lia.
    pose proof (digitsOf_digits (S (Z.to_nat (- z))) (- z) Hn) as Hd.
    pose proof (digitsOf_nonempty (Z.to_nat (- z)) (- z)) as Hne.
    pose proof (parseDigits_digitsOf (S (Z.to_nat (- z))) (- z) Hn ltac:(lia)) as Hp.
    destruct (digitsOf (S (Z.to_nat (- z))) (- z)) as [|c r] eqn:E; [congruence|].
    apply Forall_cons in Hd. destruct Hd as [Hc Hr].
    unfold parseInt10. cbn. rewrite Hc.
    change (parseDigits 0 (c :: r)) with
      (if isDigit c then parseDigits (0 * 10 + (Z.of_N c - 48)) r else 0) in Hp.
    rewrite Hc in Hp. cbn in Hp. rewrite Hp. f_equal. lia.
  - apply Z.ltb_ge in Hz. apply parseInt10_digitsOf. exact Hz.
Qed.

End JsFacts.

(** C1 (as stated, refuted): with [tab_width] present and equal to [0]
    and [indent_size] equal to [4], the resolved [tabSize] is [4], not the
    present [tab_width]. *)
Lemma fromEditorConfig_zero_tab_width :
  config_zero_tab_width !! tab_width = Some (JNum 0)
  /\ tabSize (Utils.fromEditorConfig config_zero_tab_width defaults_2_spaces) = JNum 4
  /\ Utils.fromEditorConfig config_zero_tab_width defaults_2_spaces
     <> resolveToHostOptions_spec config_zero_tab_width defaults_2_spaces.
Proof.
  split; [vm_compute; reflexivity|].
  split; [vm_compute; reflexivity|].
  vm_compute. discriminate.
Qed.

(** C1 (amended): for every configuration and defaults,
    [fromEditorConfig] returns what the specification describes once
    "present" is read as "present with a truthy value": [insertSpaces] is
    [indent_style != "tab"] when [indent_style] is truthy and the default
    otherwise, [tabSize] is the first truthy one of [tab_width] and
    [indent_size] and the default otherwise.  It is a total function, and
    on the empty configuration with defaults [{tabSize:2,
    insertSpaces:true}] it returns exactly these defaults. *)
Theorem fromEditorConfig_resolves_truthy :
  (forall (config : JsObject) (defaults : EditorSettings),
      Utils.fromEditorConfig config defaults
      = resolveToHostOptions_spec (truthyProps config) defaults)
  /\ Utils.fromEditorConfig ∅ defaults_2_spaces = defaults_2_spaces.
Proof.
  split; [|vm_compute; reflexivity].
  intros config defaults.
  unfold Utils.fromEditorConfig, resolveToHostOptions_spec.
  rewrite !truthyProps_lookup.
  rewrite !getProp_own by (vm_compute; reflexivity).
  f_equal.
  - destruct (config !! tab_width) as [w|]; simpl;
      [unfold or_else at 1; destruct (truthy w); [reflexivity|] | unfold or_else at 1; simpl];
      (destruct (config !! indent_size) as [n|]; simpl;
       [unfold or_else; destruct (truthy n); reflexivity | reflexivity]).
  - destruct (config !! indent_style) as [v|]; simpl;
      [destruct (truthy v); reflexivity | reflexivity].
Qed.

(** C4: [toEditorConfig] of [{insertSpaces:true, tabSize:4}] is exactly
    [{indent_style:"space", indent_size:4}], and [fromEditorConfig] of
    that result, with any defaults, is again
    [{insertSpaces:true, tabSize:4}]. *)
Theorem toEditorConfig_fromEditorConfig_round_trip :
  Utils.toEditorConfig options_spaces_4 = config_space_4
  /\ forall defaults : EditorSettings,
       Utils.fromEditorConfig (Utils.toEditorConfig options_spaces_4) defaults
       = options_spaces_4.
Proof.
  split; [vm_compute; reflexivity|].
  intros [t i]. vm_compute. reflexivity.
Qed.

(** C6: [toEditorConfig] emits [indent_style = space] and [indent_size =
    resolveTabSize(tabSize)] when [insertSpaces === true]; [indent_style =
    tab] and [tab_width = resolveTabSize(tabSize)] when [insertSpaces] is
    [false] or ["auto"]; and the empty mapping for any other value. *)
Theorem toEditorConfig_cases (options : EditorSettings) :
  (insertSpaces options = JBool true ->
     Utils.toEditorConfig options
     = <[indent_size := Utils.resolveTabSize (tabSize options)]>
         (<[indent_style := JStr (js "space")]> ∅))
  /\ (insertSpaces options = JBool false \/ insertSpaces options = JStr (js "auto") ->
     Utils.toEditorConfig options
     = <[tab_width := Utils.resolveTabSize (tabSize options)]>
         (<[indent_style := JStr (js "tab")]> ∅))
  /\ (insertSpaces options <> JBool true ->
      insertSpaces options <> JBool false ->
      insertSpaces options <> JStr (js "auto") ->
      Utils.toEditorConfig options = ∅).
Proof.
  unfold Utils.toEditorConfig. split; [|split].
  - intros ->. reflexivity.
  - intros [-> | ->]; reflexivity.
  - intros Ht Hf Ha.
    assert (Hs : forall v, v <> JNaN -> strict_eq (insertSpaces options) v
                           = bool_decide (insertSpaces options = v)).
    { intros v Hv. unfold strict_eq.
      destruct (insertSpaces options), v; try reflexivity; try congruence;
        symmetry; apply bool_decide_eq_false; discriminate. }
    rewrite !Hs by discriminate.
    rewrite !bool_decide_eq_false_2 by assumption. reflexivity.
Qed.

Lemma toEditorConfig_cases_witness :
  Utils.toEditorConfig (mkSettings (JStr (js "8")) (JBool true))
  = <[indent_size := JNum 8]> (<[indent_style := JStr (js "space")]> ∅)
  /\ Utils.toEditorConfig (mkSettings (JNum 2) (JStr (js "auto")))
     = <[tab_width := JNum 2]> (<[indent_style := JStr (js "tab")]> ∅)
  /\ Utils.toEditorConfig (mkSettings (JNum 2) JUndefined) = ∅.
Proof.
  split; [|split].
  - apply (proj1 (toEditorConfig_cases (mkSettings (JStr (js "8")) (JBool true)))).
    reflexivity.
  - apply (proj1 (proj2 (toEditorConfig_cases (mkSettings (JNum 2) (JStr (js "auto")))))).
    right. reflexivity.
  - apply (proj2 (proj2 (toEditorConfig_cases (mkSettings (JNum 2) JUndefined))));
      simpl; discriminate.
Defined.

(** C7: [resolveTabSize] maps ["auto"] to [4] and parses every other
    input, converted to a string, as a base-10 integer: ["8"] gives [8],
    the decimal digits of a (safe) integer give that integer, and a
    (safe) integral number is returned unchanged. *)
Theorem resolveTabSize_auto_or_parsed :
  Utils.resolveTabSize (JStr (js "auto")) = JNum 4
  /\ Utils.resolveTabSize (JStr (js "8")) = JNum 8
  /\ (forall v : JsVal, v <> JStr (js "auto") ->
        Utils.resolveTabSize v = parseInt10 (toString v))
  /\ (forall z : Z, Z.abs z <= MAX_SAFE_INTEGER ->
        Utils.resolveTabSize (JNum z) = JNum z
        /\ Utils.resolveTabSize (JStr (numberToString z)) = JNum z).
Proof.
  split; [vm_compute; reflexivity|].
  split; [vm_compute; reflexivity|].
  split.
  - intros v Hv. unfold Utils.resolveTabSize.
    assert (strict_eq v (JStr (js "auto")) = false) as ->; [|reflexivity].
    unfold strict_eq. destruct v; try reflexivity.
    apply bool_decide_eq_false. exact Hv.
  - intros z _. split.
    + unfold Utils.resolveTabSize. simpl. apply parseInt10_numberToString.
    + unfold Utils.resolveTabSize.
      destruct (strict_eq (JStr (numberToString z)) (JStr (js "auto"))) eqn:Hs.
      * exfalso. unfold strict_eq in Hs. apply bool_decide_eq_true in Hs.
        injection Hs as Hs.
        pose proof (parseInt10_numberToString z) as Hp. rewrite Hs in Hp.
        vm_compute in Hp. discriminate.
      * simpl. apply parseInt10_numberToString.
Qed.

Lemma resolveTabSize_auto_or_parsed_witness :
  Utils.resolveTabSize (JStr (js "tab")) = JNaN
  /\ Utils.resolveTabSize (JNum 12) = JNum 12
  /\ Utils.resolveTabSize (JStr (js "12")) = JNum 12.
Proof.
  destruct resolveTabSize_auto_or_parsed as (_ & _ & Hparse & Hnum).
  split.
  - rewrite (Hparse (JStr (js "tab"))) by discriminate. reflexivity.
  - apply (Hnum 12). vm_compute. discriminate.
Defined.

(* ===================================================================== *)
(** ** Properties of the save-time transforms *)
(* ===================================================================== *)

(** C2: a configuration that asks for a final newline and has no
    [end_of_line], applied to a document whose last line is not empty,
    makes [newline] read [toLowerCase] of [undefined]: the transform
    throws instead of appending a line feed. *)
Theorem insertFinalNewline_throws_without_end_of_line :
  truthy (getProp config_final_newline_only insert_final_newline) = true
  /\ lineCount document_abc = 1%nat
  /\ length (lineAt document_abc 0) = 3%nat
  /\ config_final_newline_only !! end_of_line = None
  /\ insertFinalNewlineTransform config_final_newline_only document_abc
     = ThrowTypeError.
Proof. repeat split; vm_compute; reflexivity. Qed.

Section FinalNewline.

(** X5: the transform is a no-op exactly in the three cases of its
    guards: [insert_final_newline] is falsy (false or absent), the
    document has no line, or its last line is empty. *)
Lemma insertFinalNewline_noop_iff (config : JsObject) (d : TextDocument) :
  insertFinalNewlineTransform config d = Normal None
  <-> truthy (getProp config insert_final_newline) = false
      \/ lineCount d = 0%nat
      \/ length (lineAt d (lineCount d - 1)) = 0%nat.
Proof.
  unfold insertFinalNewlineTransform.
  destruct (truthy (getProp config insert_final_newline)); simpl.
  - case_bool_decide as Hn; simpl.
    + split; [intros _; right; left; exact Hn | reflexivity].
    + case_bool_decide as Hl.
      * split; [intros _; right; right; lia | reflexivity].
      * split.
        -- destruct (newline config); discriminate.
        -- intros [H | [H | H]]; [discriminate | contradiction | lia].
  - split; [intros _; left; reflexivity | reflexivity].
Qed.

(** With a string [end_of_line] whose lower-case form is not a member of
    [Object.prototype], the sequence is chosen case-insensitively. *)
Lemma newline_of_string (config : JsObject) (eol : jsstring) :
  getProp config end_of_line = JStr eol ->
  objectPrototypeGet (toLowerCase eol) = JUndefined ->
  newline config
  = Normal (JStr (if bool_decide (toLowerCase eol = js "cr") then [13%N]
                  else if bool_decide (toLowerCase eol = js "crlf") then [13; 10]%N
                  else [10%N])).
Proof.
  intros He Hp. unfold newline. rewrite He. f_equal.
  unfold getProp, lineEndings.
  case_bool_decide as Hcr.
  - rewrite Hcr. vm_compute. reflexivity.
  - case_bool_decide as Hcrlf.
    + rewrite Hcrlf. vm_compute. reflexivity.
    + rewrite lookup_insert_ne by congruence.
      rewrite lookup_insert_ne by congruence.
      rewrite lookup_empty. rewrite Hp. reflexivity.
Qed.

(** X6: outside the guards, and with an [end_of_line] string whose
    lower-case form is not a member of [Object.prototype], exactly one
    insertion is issued, at the end of the last line: a carriage return
    for [cr], carriage return and line feed for [crlf], a line feed
    otherwise, whatever the case of the letters. *)
Lemma insertFinalNewline_appends (config : JsObject) (d : TextDocument)
    (eol : jsstring) :
  truthy (getProp config insert_final_newline) = true ->
  (0 < length (lineAt d (lineCount d - 1)))%nat ->
  getProp config end_of_line = JStr eol ->
  objectPrototypeGet (toLowerCase eol) = JUndefined ->
  insertFinalNewlineTransform config d
  = Normal (Some (EditInsert (lineCount d - 1)
                    (length (lineAt d (lineCount d - 1)))
                    (JStr (if bool_decide (toLowerCase eol = js "cr") then [13%N]
                           else if bool_decide (toLowerCase eol = js "crlf")
                                then [13; 10]%N
                                else [10%N])))).
Proof.
  intros Hflag Hlen He Hp. unfold insertFinalNewlineTransform.
  rewrite Hflag. simpl.
  assert (lineCount d <> 0%nat) as Hn.
  { intros H0. unfold lineAt, lineCount in *. rewrite H0 in Hlen.
    destruct (lines d); [simpl in Hlen; lia | discriminate]. }
  rewrite bool_decide_eq_false_2 by exact Hn.
  rewrite bool_decide_eq_false_2 by lia.
  rewrite (newline_of_string config eol He Hp). reflexivity.
Qed.

Example newline_CRLF_mixed_case :
  newline (<[end_of_line := JStr (js "CrLf")]> ∅) = Normal (JStr [13; 10]%N).
Proof. vm_compute. reflexivity. Qed.

Example newline_unrecognized :
  newline (<[end_of_line := JStr (js "lf2")]> ∅) = Normal (JStr [10%N]).
Proof. vm_compute. reflexivity. Qed.

(** An [end_of_line] that names a member of [Object.prototype] selects
    that member, which is truthy, instead of the line feed. *)
Example newline_inherited_member :
  newline (<[end_of_line := JStr (js "constructor")]> ∅)
  = Normal (JObj (BuiltinFunction "constructor")).
Proof. vm_compute. reflexivity. Qed.

End FinalNewline.

Section Trim.

Lemma trim_keeps_non_space (r : jsstring) :
  forallb isTrimClass r = false ->
  forallb isTrimClass (trimTrailingWhitespace r) = false.
Proof.
  induction r as [|d r IH]; intros Hr; [discriminate|].
  cbn [trimTrailingWhitespace matchesAtStart]. rewrite Hr.
  simpl in Hr |- *. destruct (isTrimClass d); simpl in *; [auto | reflexivity].
Qed.

(** The trimmed line has nothing left to trim. *)
Lemma trimTrailingWhitespace_idempotent (input : jsstring) :
  trimTrailingWhitespace (trimTrailingWhitespace input)
  = trimTrailingWhitespace input.
Proof.
  induction input as [|c r IH]; [reflexivity|].
  cbn [trimTrailingWhitespace matchesAtStart].
  destruct (forallb isTrimClass (c :: r)) eqn:Hall; [reflexivity|].
  cbn [trimTrailingWhitespace matchesAtStart].
  assert (forallb isTrimClass (c :: trimTrailingWhitespace r) = false) as ->.
  { simpl in Hall |- *. destruct (isTrimClass c); simpl in *; [|reflexivity].
    apply trim_keeps_non_space. exact Hall. }
  rewrite IH. reflexivity.
Qed.

(** The input is the trimmed line followed by characters of the class. *)
Lemma trimTrailingWhitespace_split (input : jsstring) :
  input = trimTrailingWhitespace input
          ++ drop (length (trimTrailingWhitespace input)) input
  /\ forallb isTrimClass (drop (length (trimTrailingWhitespace input)) input) = true.
Proof.
  induction input as [|c r [IH1 IH2]]; [split; reflexivity|].
  cbn [trimTrailingWhitespace matchesAtStart].
  destruct (forallb isTrimClass (c :: r)) eqn:Hall.
  - split; [reflexivity | exact Hall].
  - simpl. split; [f_equal; exact IH1 | exact IH2].
Qed.

(** The trimmed line does not end with a character of the class. *)
Lemma trimTrailingWhitespace_last (input : jsstring) (c : N) :
  last (trimTrailingWhitespace input) = Some c -> isTrimClass c = false.
Proof.
  induction input as [|c0 r IH]; [discriminate|].
  cbn [trimTrailingWhitespace matchesAtStart].
  destruct (forallb isTrimClass (c0 :: r)) eqn:Hall; [discriminate|].
  destruct (trimTrailingWhitespace r) as [|c1 t] eqn:Ht.
  - simpl. intros [= <-].
    destruct (trimTrailingWhitespace_split r) as [_ H2]. rewrite Ht in H2.
    simpl in H2, Hall. rewrite drop_0 in H2. rewrite H2 in Hall.
    destruct (isTrimClass c0); [discriminate | reflexivity].
  - intros Hl. apply IH. exact Hl.
Qed.

Lemma trimLine_None_on_trimmed (i : nat) (text : jsstring) :
  trimLineTrailingWhitespace i (trimTrailingWhitespace text) = None.
Proof.
  unfold trimLineTrailingWhitespace.
  rewrite bool_decide_eq_true_2; [reflexivity|].
  apply trimTrailingWhitespace_idempotent.
Qed.

Lemma no_edits_on_trimmed (ls : list jsstring) (f : nat -> nat) :
  omap id (imap (fun i => trimLineTrailingWhitespace (f i))
                (trimTrailingWhitespace <$> ls)) = [].
Proof.
  revert f. induction ls as [|t ls IH]; intros f; [reflexivity|].
  rewrite fmap_cons, imap_cons. cbn [omap].
  rewrite trimLine_None_on_trimmed. simpl.
  apply (IH (fun i => f (S i))).
Qed.

Lemma applyDelete_trims (prefix rest : list jsstring) (text : jsstring) :
  applyDelete (length prefix) (length (trimTrailingWhitespace text))
    (length text) (prefix ++ text :: rest)
  = prefix ++ trimTrailingWhitespace text :: rest.
Proof.
  unfold applyDelete.
  replace (length prefix) with (length prefix + 0)%nat by lia.
  rewrite alter_app_r. simpl. f_equal. f_equal.
  rewrite drop_all, app_nil_r.
  destruct (trimTrailingWhitespace_split text) as [H1 _].
  rewrite H1 at 2. apply take_app_length.
Qed.

(** Once the edits of a pass have settled, every line is its trimmed
    form. *)
Lemma trim_edits_settled (rest prefix : list jsstring) :
  foldl applyTrimEdit (prefix ++ rest)
    (omap id (imap (fun i => trimLineTrailingWhitespace (length prefix + i)) rest))
  = prefix ++ (trimTrailingWhitespace <$> rest).
Proof.
  revert prefix. induction rest as [|t rest IH]; intros prefix; [reflexivity|].
  rewrite imap_cons, fmap_cons. cbn [omap].
  assert (Hshift : forall x : jsstring,
    imap ((fun i => trimLineTrailingWhitespace (length prefix + i)) ∘ S) rest
    = imap (fun i => trimLineTrailingWhitespace (length (prefix ++ [x]) + i)) rest).
  { intros x. apply imap_ext. intros i y _. simpl. rewrite length_app. simpl.
    f_equal. lia. }
  destruct (trimLineTrailingWhitespace (length prefix + 0) t) as [op|] eqn:Hop.
  - unfold trimLineTrailingWhitespace in Hop.
    case_bool_decide as Heq; [discriminate|]. injection Hop as <-.
    cbn [foldl applyTrimEdit list_omap id].
    replace (length prefix + 0)%nat with (length prefix) by lia.
    rewrite applyDelete_trims.
    rewrite (Hshift (trimTrailingWhitespace t)).
    pose proof (IH (prefix ++ [trimTrailingWhitespace t])) as IH'.
    rewrite <- !app_assoc in IH'. exact IH'.
  - unfold trimLineTrailingWhitespace in Hop.
    case_bool_decide as Heq; [|discriminate].
    cbn [list_omap id]. rewrite Heq. rewrite (Hshift t).
    pose proof (IH (prefix ++ [t])) as IH'.
    rewrite <- !app_assoc in IH'. exact IH'.
Qed.

(** C5: trimming is idempotent.  Trimming a trimmed line changes
    nothing; a second pass of the transform over the document left by the
    first one issues no edit; and every edit of a pass is the deletion, on
    a changed line, of exactly its trailing run of characters of the
    class: from the length of the trimmed line to the length of the line,
    what is deleted consists of class characters only and what is kept
    does not end with one. *)
Theorem trimTrailingWhitespace_idempotent_exact_span :
  (forall input : jsstring,
      trimTrailingWhitespace (trimTrailingWhitespace input)
      = trimTrailingWhitespace input)
  /\ (forall (editorTrims : JsVal) (config : JsObject) (d : TextDocument),
        trimTrailingWhitespaceTransform editorTrims config
          (afterTrim (trimTrailingWhitespaceTransform editorTrims config d) d)
        = [])
  /\ (forall (editorTrims : JsVal) (config : JsObject) (d : TextDocument)
             (op : EditOp),
        op ∈ trimTrailingWhitespaceTransform editorTrims config d ->
        exists (l : nat) (text : jsstring),
          lines d !! l = Some text
          /\ trimTrailingWhitespace text <> text
          /\ op = EditDelete l (length (trimTrailingWhitespace text)) (length text)
          /\ text = trimTrailingWhitespace text
                    ++ drop (length (trimTrailingWhitespace text)) text
          /\ forallb isTrimClass
               (drop (length (trimTrailingWhitespace text)) text) = true
          /\ (forall c : N, last (trimTrailingWhitespace text) = Some c ->
                            isTrimClass c = false)).
Proof.
  split; [exact trimTrailingWhitespace_idempotent|]. split.
  - intros editorTrims config d. unfold trimTrailingWhitespaceTransform.
    destruct (truthy editorTrims
              || negb (truthy (getProp config trim_trailing_whitespace)));
      [reflexivity|].
    unfold afterTrim. cbn [lines].
    pose proof (trim_edits_settled (lines d) []) as Hs.
    cbn [length Nat.add app] in Hs.
    change (fun i : nat => trimLineTrailingWhitespace i)
      with trimLineTrailingWhitespace in Hs.
    rewrite Hs.
    exact (no_edits_on_trimmed (lines d) (fun i => i)).
  - intros editorTrims config d op. unfold trimTrailingWhitespaceTransform.
    destruct (truthy editorTrims
              || negb (truthy (getProp config trim_trailing_whitespace))).
    + intros H. apply elem_of_nil in H. contradiction.
    + intros H. apply list_elem_of_omap in H. destruct H as (x & Hx & Hid).
      simpl in Hid. subst x.
      apply list_elem_of_lookup in Hx. destruct Hx as [i Hi].
      rewrite list_lookup_imap in Hi.
      destruct (lines d !! i) as [text|] eqn:Ht; [|discriminate].
      simpl in Hi. injection Hi as Hi.
      unfold trimLineTrailingWhitespace in Hi.
      case_bool_decide as Heq; [discriminate|]. injection Hi as <-.
      exists i, text. split; [exact Ht|]. split; [exact Heq|].
      split; [reflexivity|].
      destruct (trimTrailingWhitespace_split text) as [H1 H2].
      split; [exact H1|]. split; [exact H2|].
      intros c. apply trimTrailingWhitespace_last.
Qed.

Lemma trimTrailingWhitespace_idempotent_exact_span_witness :
  exists (l : nat) (text : jsstring),
    lines document_blanks !! l = Some text
    /\ trimTrailingWhitespace text <> text
    /\ EditDelete 2 1 4
       = EditDelete l (length (trimTrailingWhitespace text)) (length text)
    /\ text = trimTrailingWhitespace text
              ++ drop (length (trimTrailingWhitespace text)) text
    /\ forallb isTrimClass
         (drop (length (trimTrailingWhitespace text)) text) = true
    /\ (forall c : N, last (trimTrailingWhitespace text) = Some c ->
                      isTrimClass c = false).
Proof.
  apply (proj2 (proj2 trimTrailingWhitespace_idempotent_exact_span)
           (JBool false) config_trim document_blanks (EditDelete 2 1 4)).
  vm_compute. apply list_elem_of_further. apply list_elem_of_here.
Defined.

Example trim_document_blanks :
  trimTrailingWhitespaceTransform (JBool false) config_trim document_blanks
  = [EditDelete 0 6 8; EditDelete 2 1 4].
Proof. vm_compute. reflexivity. Qed.

End Trim.

(* ===================================================================== *)
(** ** The two variants of [generateEditorConfig] *)
(* ===================================================================== *)

(** C10 (as stated, refuted): on the empty settings mapping the variant
    that concatenates ends its contents with a line feed and the variant
    that joins does not. *)
Lemma fileContents_differ_on_empty_settings :
  GenerateConcat.fileContents ∅ = js "root = true" ++ lf ++ lf ++ js "[*]" ++ lf
  /\ GenerateJoin.fileContents ∅ = js "root = true" ++ lf ++ lf ++ js "[*]"
  /\ GenerateConcat.fileContents ∅ <> GenerateJoin.fileContents ∅.
Proof.
  split; [vm_compute; reflexivity|]. split; [vm_compute; reflexivity|].
  vm_compute. discriminate.
Qed.

(** C10 (amended): for every settings mapping, the contents produced by
    the concatenating variant are the contents produced by the joining
    variant followed by one line feed. *)
Theorem fileContents_concat_is_join_then_lf (settings : JsObject) :
  GenerateConcat.fileContents settings = GenerateJoin.fileContents settings ++ lf.
Proof.
  unfold GenerateConcat.fileContents, GenerateJoin.fileContents,
    GenerateJoin.fileContentsLines, GenerateJoin.supportedProperties.
  cbn [foldl].
  destruct (hasOwnProperty settings indent_style),
           (hasOwnProperty settings indent_size),
           (hasOwnProperty settings tab_width);
    cbn [app join]; rewrite <- ?app_assoc; reflexivity.
Qed.

(* ===================================================================== *)
(** ** Properties of the document watcher *)
(* ===================================================================== *)

Section WatcherFacts.

Variable host : Host.
Variable parse : jsstring -> option JsObject.

Local Abbreviation configMap w := (_documentToConfigMap (watcher w)).

Lemma applyEditorConfig_watcher (e : option TextEditor) (w : World) :
  watcher (applyEditorConfigToTextEditor e w) = watcher w.
Proof.
  unfold applyEditorConfigToTextEditor.
  destruct e as [e|]; [|reflexivity].
  destruct (getSettingsForDocument w (document e)); reflexivity.
Qed.

Lemma applyEditorConfig_trace (e : option TextEditor) (w : World) :
  exists evs,
    trace (applyEditorConfigToTextEditor e w) = trace w ++ evs
    /\ Forall (fun ev => isResolutionEvent ev = true) evs.
Proof.
  unfold applyEditorConfigToTextEditor.
  destruct e as [e|]; [|exists []; split; [symmetry; apply app_nil_r | constructor]].
  destruct (getSettingsForDocument w (document e)) as [c|];
    [|exists []; split; [symmetry; apply app_nil_r | constructor]].
  eexists [_; _]. split.
  - cbn [emit trace]. rewrite <- app_assoc. reflexivity.
  - repeat constructor.
Qed.

Lemma onParsed_map (path : jsstring) (config : JsObject) (w : World) :
  configMap (onParsed host path config w)
  = <[path := normalizeIndentSize config]> (configMap w).
Proof. unfold onParsed. rewrite applyEditorConfig_watcher. reflexivity. Qed.

Lemma onParsed_defaults (path : jsstring) (config : JsObject) (w : World) :
  _defaults (watcher (onParsed host path config w)) = _defaults (watcher w).
Proof. unfold onParsed. rewrite applyEditorConfig_watcher. reflexivity. Qed.

Lemma onParsed_trace (path : jsstring) (config : JsObject) (w : World) :
  exists evs,
    trace (onParsed host path config w)
    = trace w ++ ConfigStored path (normalizeIndentSize config) :: evs
    /\ Forall (fun ev => isResolutionEvent ev = true) evs.
Proof.
  unfold onParsed.
  destruct (applyEditorConfig_trace (activeTextEditor host)
              (emit (ConfigStored path (normalizeIndentSize config))
                 (withMap (<[path := normalizeIndentSize config]> (configMap w)) w)))
    as (evs & Ht & Hev).
  exists evs. split; [|exact Hev].
  rewrite Ht. cbn [emit trace withMap]. rewrite <- app_assoc. reflexivity.
Qed.

(** What one settlement does to the map, the defaults and the trace. *)
Lemma settle_spec (path : jsstring) (w w1 : World) (ok : bool) :
  settle host parse path w = (w1, ok) ->
  ok = bool_decide (is_Some (parse path))
  /\ configMap w1
     = match parse path with
       | Some config => <[path := normalizeIndentSize config]> (configMap w)
       | None => configMap w
       end
  /\ _defaults (watcher w1) = _defaults (watcher w)
  /\ exists evs,
       trace w1 = trace w ++ evs
       /\ Forall (fun ev => isResolutionEvent ev = true) evs
       /\ forall config, parse path = Some config ->
            ConfigStored path (normalizeIndentSize config) ∈ evs.
Proof.
  unfold settle. destruct (parse path) as [config|]; intros [= <- <-].
  - split; [reflexivity|]. split; [apply onParsed_map|].
    split; [apply onParsed_defaults|].
    destruct (onParsed_trace path config w) as (evs & Ht & Hev).
    eexists. split; [exact Ht|]. split.
    + constructor; [reflexivity | exact Hev].
    + intros c [= <-]. apply list_elem_of_here.
  - split; [reflexivity|]. split; [reflexivity|]. split; [reflexivity|].
    exists [ParseRejected path]. split; [reflexivity|]. split.
    + repeat constructor.
    + intros c Hc. discriminate.
Qed.

(** What a run of settlements does: the paths [settled] have left the
    awaited ones; nothing but resolution events has been traced; the
    aggregate has rejected exactly when it had or when one of them was
    rejected; and every settled path has the entry its parse gives. *)
Lemma settleAll_spec (choices : list nat) :
  forall (a a' : Aggregate) (w w' : World),
    settleAll host parse choices a w = (w', a') ->
    exists (settled : list jsstring) (evs : list Event),
      awaited a ≡ₚ settled ++ awaited a'
      /\ trace w' = trace w ++ evs
      /\ Forall (fun ev => isResolutionEvent ev = true) evs
      /\ _defaults (watcher w') = _defaults (watcher w)
      /\ (rejected a' = false <->
          rejected a = false /\ forall p, p ∈ settled -> is_Some (parse p))
      /\ (forall p,
            configMap w' !! p
            = if decide (p ∈ settled) then
                match parse p with
                | Some config => Some (normalizeIndentSize config)
                | None => configMap w !! p
                end
              else configMap w !! p)
      /\ (forall p config, p ∈ settled -> parse p = Some config ->
            ConfigStored p (normalizeIndentSize config) ∈ evs).
Proof.
  induction choices as [|c rest IH]; intros a a' w w' Hrun.
  - simpl in Hrun. injection Hrun as <- <-.
    exists [], []. split; [reflexivity|]. split; [symmetry; apply app_nil_r|].
    split; [constructor|]. split; [reflexivity|]. split.
    + split; [intros H; split; [exact H | intros p Hp; apply elem_of_nil in Hp; contradiction]
             | intros [H _]; exact H].
    + split; [intros p; reflexivity|].
      intros p config Hp. apply elem_of_nil in Hp. contradiction.
  - simpl in Hrun.
    destruct (awaited a) as [|p0 ps] eqn:Haw.
    { injection Hrun as <- <-.
      exists [], []. rewrite Haw. split; [reflexivity|].
      split; [symmetry; apply app_nil_r|].
      split; [constructor|]. split; [reflexivity|]. split.
      + split; [intros H; split; [exact H | intros p Hp; apply elem_of_nil in Hp; contradiction]
               | intros [H _]; exact H].
      + split; [intros p; reflexivity|].
        intros p config Hp. apply elem_of_nil in Hp. contradiction. }
    destruct ((p0 :: ps) !! (c mod length (p0 :: ps))%nat) as [path|] eqn:Hpick.
    2:{ injection Hrun as <- <-.
      exists [], []. rewrite Haw. split; [reflexivity|].
      split; [symmetry; apply app_nil_r|].
      split; [constructor|]. split; [reflexivity|]. split.
      + split; [intros H; split; [exact H | intros p Hp; apply elem_of_nil in Hp; contradiction]
               | intros [H _]; exact H].
      + split; [intros p; reflexivity|].
        intros p config Hp. apply elem_of_nil in Hp. contradiction. }
    destruct (settle host parse path w) as [w1 ok] eqn:Hs.
    apply settle_spec in Hs.
    destruct Hs as (Hok & Hmap1 & Hdef1 & evs1 & Htr1 & Hev1 & Hst1).
    apply IH in Hrun.
    destruct Hrun as (settled & evs & Hperm & Htr & Hev & Hdef & Hrej & Hmap & Hst).
    cbn [awaited rejected] in Hperm, Hrej.
    exists (path :: settled), (evs1 ++ evs).
    split.
    { rewrite (delete_Permutation _ _ _ Hpick). simpl. rewrite Hperm. reflexivity. }
    split; [rewrite Htr, Htr1, app_assoc; reflexivity|].
    split; [apply Forall_app; split; assumption|].
    split; [congruence|].
    split.
    { rewrite Hrej. rewrite orb_false_iff, negb_false_iff, Hok.
      split.
      - intros [[Hr Hp] Hall]. apply bool_decide_eq_true in Hp.
        split; [exact Hr|]. intros p Hin.
        apply elem_of_cons in Hin. destruct Hin as [-> | Hin]; [exact Hp | auto].
      - intros [Hr Hall]. split; [split; [exact Hr|]|].
        + apply bool_decide_eq_true. apply Hall. apply list_elem_of_here.
        + intros p Hin. apply Hall. apply list_elem_of_further. exact Hin. }
    split.
    { intros p. rewrite Hmap, Hmap1.
      destruct (decide (p = path)) as [-> | Hne].
      - rewrite (decide_True (P := path ∈ path :: settled)) by apply list_elem_of_here.
        destruct (parse path) as [config|] eqn:Hp.
        + destruct (decide (path ∈ settled)); [reflexivity | apply lookup_insert_eq].
        + destruct (decide (path ∈ settled)); reflexivity.
      - assert (Hlk :
          match parse path with
          | Some config => <[path := normalizeIndentSize config]> (configMap w)
          | None => configMap w
          end !! p = configMap w !! p).
        { destruct (parse path); [apply lookup_insert_ne; congruence | reflexivity]. }
        rewrite Hlk.
        destruct (decide (p ∈ settled)) as [Hin | Hnin].
        + rewrite decide_True by (apply list_elem_of_further; exact Hin). reflexivity.
        + rewrite decide_False; [reflexivity|].
          intros Hin. apply elem_of_cons in Hin. destruct Hin; contradiction. }
    intros p config Hin Hp. apply elem_of_app.
    apply elem_of_cons in Hin. destruct Hin as [-> | Hin].
    + left. apply Hst1. exact Hp.
    + right. apply (Hst p config Hin Hp).
Qed.

(** Right after the map has been cleared every titled document starts a
    parse and nothing else happens. *)
Lemma openAll_fresh (documents : list TextDocument) (w : World) :
  configMap w = ∅ ->
  openAll host documents w
  = (w, (fun d => if isUntitled d then Resolved else AwaitingParse (fileName d))
          <$> documents).
Proof.
  intros Hm. induction documents as [|d rest IH]; [reflexivity|].
  cbn [openAll]. unfold _onDidOpenDocument.
  destruct (isUntitled d) eqn:Hu.
  - rewrite IH. rewrite fmap_cons, Hu. reflexivity.
  - rewrite Hm, lookup_empty. rewrite IH. rewrite fmap_cons, Hu. reflexivity.
Qed.

Lemma pendingPaths_fresh (documents : list TextDocument) :
  pendingPaths
    ((fun d => if isUntitled d then Resolved else AwaitingParse (fileName d))
       <$> documents)
  = titledPaths documents.
Proof.
  unfold pendingPaths, titledPaths.
  induction documents as [|d rest IH]; [reflexivity|].
  simpl. destruct (isUntitled d); simpl; [exact IH | f_equal; exact IH].
Qed.

(** With at least as many scheduling steps as awaited parses, every parse
    settles. *)
Lemma settleAll_drains (choices : list nat) :
  forall (a : Aggregate) (w : World),
    (length (awaited a) <= length choices)%nat ->
    awaited (settleAll host parse choices a w).2 = [].
Proof.
  induction choices as [|c rest IH]; intros a w Hlen.
  - simpl in *. destruct (awaited a); [reflexivity | simpl in Hlen; lia].
  - simpl. destruct (awaited a) as [|p0 ps] eqn:Haw; [simpl; exact Haw|].
    assert (Hlt : (c mod length (p0 :: ps) < length (p0 :: ps))%nat)
      by (apply Nat.mod_upper_bound; discriminate).
    destruct (lookup_lt_is_Some_2 _ _ Hlt) as [path Hpick].
    rewrite Hpick.
    destruct (settle host parse path w) as [w1 ok].
    apply IH. cbn [awaited]. rewrite length_delete by eauto.
    simpl in Hlen |- *. lia.
Qed.

End WatcherFacts.


(** C3 (as stated, refuted): a resolved configuration whose
    [indent_size] and [tab_width] are both the marker [tab] is stored
    with the marker as its [indent_size]. *)
Lemma stored_indent_size_keeps_tab_marker :
  getProp config_tab_marker indent_size = JStr (js "tab")
  /\ exists stored : JsObject,
       _documentToConfigMap
         (watcher (settle host_sample parse_tab_marker (js "/work/b.txt")
                     world_initial).1) !! js "/work/b.txt"
       = Some stored
       /\ getProp stored indent_size = JStr (js "tab").
Proof.
  split; [vm_compute; reflexivity|].
  exists (normalizeIndentSize config_tab_marker).
  split; vm_compute; reflexivity.
Qed.

(** C3 (amended): what resolution stores is the normalized
    configuration.  When the resolved [indent_size] is the marker [tab]
    the stored [indent_size] is the value of [tab_width]; the stored
    [indent_size] is the marker exactly when the resolved [indent_size]
    and [tab_width] are both the marker; and when the parser never gives
    both, no run of resolutions puts an entry with the marker in a map
    that had none. *)
Theorem stored_indent_size_is_tab_width :
  (forall config : JsObject,
      getProp config indent_size = JStr (js "tab") ->
      getProp (normalizeIndentSize config) indent_size = getProp config tab_width)
  /\ (forall config : JsObject,
        getProp (normalizeIndentSize config) indent_size = JStr (js "tab")
        <-> getProp config indent_size = JStr (js "tab")
            /\ getProp config tab_width = JStr (js "tab"))
  /\ (forall (host : Host) (parse : jsstring -> option JsObject)
             (path : jsstring) (config : JsObject) (w : World),
        parse path = Some config ->
        _documentToConfigMap (watcher (settle host parse path w).1) !! path
        = Some (normalizeIndentSize config))
  /\ (forall (host : Host) (parse : jsstring -> option JsObject),
        (forall path config,
            parse path = Some config ->
            getProp config indent_size = JStr (js "tab") ->
            getProp config tab_width <> JStr (js "tab")) ->
        forall (choices : list nat) (a : Aggregate) (w : World),
          noTabMarker (_documentToConfigMap (watcher w)) ->
          noTabMarker
            (_documentToConfigMap (watcher (settleAll host parse choices a w).1))).
Proof.
  assert (Hrewrite : forall config : JsObject,
    getProp config indent_size = JStr (js "tab") ->
    getProp (normalizeIndentSize config) indent_size = getProp config tab_width).
  { intros config Hm. unfold normalizeIndentSize. rewrite Hm.
    change (strict_eq (JStr (js "tab")) (JStr (js "tab"))) with true. cbn iota.
    unfold getProp at 1. rewrite lookup_insert_eq. reflexivity. }
  assert (Hkept : forall config : JsObject,
    getProp config indent_size <> JStr (js "tab") ->
    normalizeIndentSize config = config).
  { intros config Hm. unfold normalizeIndentSize.
    destruct (strict_eq (getProp config indent_size) (JStr (js "tab"))) eqn:Hs;
      [|reflexivity].
    exfalso. apply Hm. unfold strict_eq in Hs.
    destruct (getProp config indent_size); try discriminate;
      apply bool_decide_eq_true in Hs; exact Hs. }
  assert (Hiff : forall config : JsObject,
    getProp (normalizeIndentSize config) indent_size = JStr (js "tab")
    <-> getProp config indent_size = JStr (js "tab")
        /\ getProp config tab_width = JStr (js "tab")).
  { intros config.
    destruct (decide (getProp config indent_size = JStr (js "tab"))) as [Hm | Hm].
    - rewrite (Hrewrite config Hm). split; [intros H; split; assumption | intros [_ H]; exact H].
    - rewrite (Hkept config Hm). split; [intros H; contradiction | intros [H _]; exact H]. }
  split; [exact Hrewrite|]. split; [exact Hiff|]. split.
  - intros host parse path config w Hp.
    destruct (settle host parse path w) as [w1 ok] eqn:Hs.
    apply settle_spec in Hs. destruct Hs as (_ & Hmap & _).
    cbn [fst]. rewrite Hmap, Hp. apply lookup_insert_eq.
  - intros host parse Hty choices a w Hinv.
    destruct (settleAll host parse choices a w) as [w' a'] eqn:Hrun.
    apply settleAll_spec in Hrun.
    destruct Hrun as (settled & evs & _ & _ & _ & _ & _ & Hmap & _).
    cbn [fst]. intros p config Hlk. rewrite Hmap in Hlk.
    destruct (decide (p ∈ settled)); [|exact (Hinv p config Hlk)].
    destruct (parse p) as [c|] eqn:Hp; [|exact (Hinv p config Hlk)].
    injection Hlk as <-. intros Hmarker. apply Hiff in Hmarker.
    destruct Hmarker as [Hsize Hwidth]. exact (Hty p c Hp Hsize Hwidth).
Qed.

Lemma stored_indent_size_is_tab_width_witness :
  getProp (normalizeIndentSize config_tab_8) indent_size
  = getProp config_tab_8 tab_width
  /\ (getProp (normalizeIndentSize config_tab_marker) indent_size = JStr (js "tab")
      <-> getProp config_tab_marker indent_size = JStr (js "tab")
          /\ getProp config_tab_marker tab_width = JStr (js "tab"))
  /\ _documentToConfigMap
       (watcher (settle host_sample parse_sample (js "/work/b.txt") world_initial).1)
     !! js "/work/b.txt"
     = Some (normalizeIndentSize config_tab_8).
Proof.
  destruct stored_indent_size_is_tab_width as (Hrewrite & Hiff & Hstore & _).
  split; [apply Hrewrite; vm_compute; reflexivity|].
  split; [apply Hiff|].
  apply Hstore. vm_compute. reflexivity.
Defined.

(** The run of the handler on the sample host: the map is cleared, both
    titled documents are stored, and the transforms run last. *)
Example save_of_sample_config_file :
  map isResolutionEvent
    (trace (onDidSaveTextDocument host_sample parse_sample [1; 0]%nat
              document_editorconfig world_initial))
  = [false; true; true; true; true; false]
  /\ saveTransformations host_sample
       (onDidSaveTextDocument host_sample parse_sample [1; 0]%nat
          document_editorconfig world_initial)
       document_editorconfig
     = Pipeline [EditDelete 2 17 19]
         (Normal (Some (EditInsert 2 17 (JStr [10%N])))) true.
Proof. split; vm_compute; reflexivity. Qed.

(** C9: resolution failures are isolated per path.  Among resolutions
    requested together and settled in any order, a path whose parse
    fulfils gets its (normalized) entry whatever happens to the others,
    and a path whose parse rejects, and that had no entry, still has
    none: the lookup for a document with that path is absent, the save
    pipeline and the refresh of an editor showing it do nothing. *)
Theorem resolution_failure_is_isolated
    (host : Host) (parse : jsstring -> option JsObject) (choices : list nat)
    (a : Aggregate) (w : World) (pathA pathB : jsstring) (configB : JsObject) :
  parse pathA = None ->
  _documentToConfigMap (watcher w) !! pathA = None ->
  pathB ∈ awaited a ->
  parse pathB = Some configB ->
  (length (awaited a) <= length choices)%nat ->
  awaited (settleAll host parse choices a w).2 = []
  /\ _documentToConfigMap (watcher (settleAll host parse choices a w).1) !! pathB
     = Some (normalizeIndentSize configB)
  /\ _documentToConfigMap (watcher (settleAll host parse choices a w).1) !! pathA
     = None
  /\ forall documentA : TextDocument,
       fileName documentA = pathA ->
       getSettingsForDocument (settleAll host parse choices a w).1 documentA = None
       /\ saveTransformations host (settleAll host parse choices a w).1 documentA
          = NoConfiguration
       /\ applyOnSaveTransformations host documentA
            (settleAll host parse choices a w).1
          = (settleAll host parse choices a w).1
       /\ forall id : nat,
            applyEditorConfigToTextEditor (Some (mkEditor id documentA))
              (settleAll host parse choices a w).1
            = (settleAll host parse choices a w).1.
Proof.
  intros HA HwA HB HpB Hlen.
  pose proof (settleAll_drains host parse choices a w Hlen) as Hdrain.
  destruct (settleAll host parse choices a w) as [w' a'] eqn:Hrun.
  cbn [fst snd] in *.
  apply settleAll_spec in Hrun.
  destruct Hrun as (settled & evs & Hperm & _ & _ & _ & _ & Hmap & _).
  rewrite Hdrain, app_nil_r in Hperm.
  assert (HmB : _documentToConfigMap (watcher w') !! pathB
                = Some (normalizeIndentSize configB)).
  { rewrite Hmap, decide_True, HpB by (rewrite <- Hperm; exact HB). reflexivity. }
  assert (HmA : _documentToConfigMap (watcher w') !! pathA = None).
  { rewrite Hmap, HA. destruct (decide (pathA ∈ settled)); exact HwA. }
  split; [exact Hdrain|]. split; [exact HmB|]. split; [exact HmA|].
  intros documentA Hname.
  assert (Hget : getSettingsForDocument w' documentA = None)
    by (unfold getSettingsForDocument; rewrite Hname; exact HmA).
  split; [exact Hget|].
  unfold applyOnSaveTransformations, saveTransformations,
    applyEditorConfigToTextEditor.
  cbn [document]. rewrite Hget. repeat split; reflexivity.
Qed.

Lemma resolution_failure_is_isolated_witness :
  awaited (settleAll host_with_broken parse_sample [1; 0; 0]%nat
             {| awaited := titledPaths (textDocuments host_with_broken);
                rejected := false |} world_initial).2 = []
  /\ _documentToConfigMap
       (watcher (settleAll host_with_broken parse_sample [1; 0; 0]%nat
                   {| awaited := titledPaths (textDocuments host_with_broken);
                      rejected := false |} world_initial).1)
     !! js "/work/b.txt"
     = Some (normalizeIndentSize config_tab_8)
  /\ _documentToConfigMap
       (watcher (settleAll host_with_broken parse_sample [1; 0; 0]%nat
                   {| awaited := titledPaths (textDocuments host_with_broken);
                      rejected := false |} world_initial).1)
     !! js "/broken/c.txt"
     = None.
Proof.
  destruct (resolution_failure_is_isolated host_with_broken parse_sample
              [1; 0; 0]%nat
              {| awaited := titledPaths (textDocuments host_with_broken);
                 rejected := false |}
              world_initial (js "/broken/c.txt") (js "/work/b.txt") config_tab_8)
    as (Hdrain & HB & HA & _).
  - vm_compute. reflexivity.
  - vm_compute. reflexivity.
  - vm_compute. do 2 apply list_elem_of_further. apply list_elem_of_here.
  - vm_compute. reflexivity.
  - vm_compute. lia.
  - split; [exact Hdrain|]. split; [exact HB | exact HA].
Defined.

(** The rejection of one parse of a rebuild keeps the transforms of the
    saved configuration file from running, while the other documents are
    stored all the same. *)
Example rebuild_with_a_rejection :
  map isResolutionEvent
    (trace (onDidSaveTextDocument host_with_broken parse_sample [1; 0; 0]%nat
              document_editorconfig world_initial))
  = [false; true; true; true; true; true; true; true]
  /\ dom (_documentToConfigMap
            (watcher (onDidSaveTextDocument host_with_broken parse_sample
                        [1; 0; 0]%nat document_editorconfig world_initial)))
     = {[ js "/work/.editorconfig"; js "/work/b.txt" ]}.
Proof. split; vm_compute; reflexivity. Qed.

(* ===================================================================== *)
(** ** Further properties of the save-time transforms *)
(* ===================================================================== *)

Section TrimFacts.

Lemma forallb_last (P : N -> bool) (s : jsstring) (c : N) :
  forallb P s = true -> last s = Some c -> P c = true.
Proof.
  induction s as [|x r IH]; [discriminate|].
  simpl. intros Hall. apply andb_true_iff in Hall. destruct Hall as [Hx Hr].
  destruct r as [|y r']; [intros [= <-]; exact Hx|].
  intros Hl. apply IH; assumption.
Qed.

Lemma trim_all_class (ws : jsstring) :
  forallb isTrimClass ws = true -> trimTrailingWhitespace ws = [].
Proof.
  destruct ws as [|c r]; [reflexivity|].
  intros H. cbn [trimTrailingWhitespace matchesAtStart]. rewrite H. reflexivity.
Qed.

Lemma trim_app_class (s ws : jsstring) :
  forallb isTrimClass ws = true ->
  trimTrailingWhitespace (s ++ ws) = trimTrailingWhitespace s.
Proof.
  intros Hws. induction s as [|c r IH]; [apply trim_all_class; exact Hws|].
  rewrite <- app_comm_cons.
  cbn [trimTrailingWhitespace matchesAtStart].
  assert (forallb isTrimClass (c :: r ++ ws) = forallb isTrimClass (c :: r)) as ->.
  { simpl. rewrite forallb_app, Hws, andb_true_r. reflexivity. }
  rewrite IH. reflexivity.
Qed.

Lemma trim_fixed (s : jsstring) :
  (forall c, last s = Some c -> isTrimClass c = false) ->
  trimTrailingWhitespace s = s.
Proof.
  induction s as [|c r IH]; intros Hl; [reflexivity|].
  cbn [trimTrailingWhitespace matchesAtStart].
  destruct (forallb isTrimClass (c :: r)) eqn:Hall.
  - exfalso. destruct (last (c :: r)) as [x|] eqn:Hx.
    + pose proof (forallb_last _ _ _ Hall Hx) as Ht.
      rewrite (Hl x eq_refl) in Ht. discriminate.
    + apply last_None in Hx. discriminate.
  - f_equal. apply IH. intros x Hx. apply Hl.
    destruct r; [discriminate | exact Hx].
Qed.

(** The edits of a pass over [ls], numbered from [k]: their lines
    increase strictly and lie in the range of the lines read. *)
Lemma trim_edits_sorted (ls : list jsstring) :
  forall k : nat,
    StronglySorted lt
      (editLine <$> omap id (imap (fun i => trimLineTrailingWhitespace (k + i)) ls))
    /\ Forall (fun op => (k <= editLine op < k + length ls)%nat)
         (omap id (imap (fun i => trimLineTrailingWhitespace (k + i)) ls)).
Proof.
  induction ls as [|t ls IH]; intros k; [split; constructor|].
  rewrite imap_cons.
  assert (Hshift :
    imap ((fun i => trimLineTrailingWhitespace (k + i)) ∘ S) ls
    = imap (fun i => trimLineTrailingWhitespace (S k + i)) ls).
  { apply imap_ext. intros i y _. simpl. f_equal. lia. }
  rewrite Hshift. destruct (IH (S k)) as [Hs Hb].
  assert (Hb' : Forall (fun op => (k <= editLine op < k + length (t :: ls))%nat)
                  (omap id (imap (fun i => trimLineTrailingWhitespace (S k + i)) ls))).
  { eapply Forall_impl; [exact Hb|]. simpl. intros op Hop. lia. }
  cbn [omap list_omap id].
  destruct (trimLineTrailingWhitespace (k + 0) t) as [op0|] eqn:Hop0.
  - assert (Hline : editLine op0 = k).
    { unfold trimLineTrailingWhitespace in Hop0.
      case_bool_decide; [discriminate|]. injection Hop0 as <-. simpl. lia. }
    split.
    + rewrite fmap_cons. constructor; [exact Hs|].
      apply Forall_fmap. eapply Forall_impl; [exact Hb|].
      simpl. intros op Hop. lia.
    + constructor; [simpl; lia | exact Hb'].
  - split; [exact Hs | exact Hb'].
Qed.

End TrimFacts.

(** X1: [trimTrailingWhitespace] removes the whole trailing run and
    nothing else: a text that is empty or ends outside the class,
    followed by any run of class characters, is trimmed to that text. *)
Theorem trimTrailingWhitespace_strips_maximal_run (s ws : jsstring) :
  (forall c, last s = Some c -> isTrimClass c = false) ->
  forallb isTrimClass ws = true ->
  trimTrailingWhitespace (s ++ ws) = s.
Proof.
  intros Hs Hws. rewrite trim_app_class by exact Hws. apply trim_fixed. exact Hs.
Qed.

Lemma trimTrailingWhitespace_strips_maximal_run_witness :
  trimTrailingWhitespace (js " a b" ++ [32; 9; 160; 65279; 8195]%N) = js " a b".
Proof.
  apply trimTrailingWhitespace_strips_maximal_run.
  - intros c Hc. vm_compute in Hc. injection Hc as <-. vm_compute. reflexivity.
  - vm_compute. reflexivity.
Defined.

(** X2: a line is left unchanged by [trimTrailingWhitespace] exactly
    when it is empty or its last character is outside the class; blanks
    inside the line or at its start are never touched. *)
Theorem trimTrailingWhitespace_unchanged_iff (s : jsstring) :
  trimTrailingWhitespace s = s
  <-> (forall c, last s = Some c -> isTrimClass c = false).
Proof.
  split.
  - intros Heq c Hc. apply (trimTrailingWhitespace_last s). rewrite Heq. exact Hc.
  - apply trim_fixed.
Qed.

Lemma trimTrailingWhitespace_unchanged_iff_witness :
  trimTrailingWhitespace (js "  y z") = js "  y z".
Proof.
  apply (proj2 (trimTrailingWhitespace_unchanged_iff (js "  y z"))).
  intros c Hc. vm_compute in Hc. injection Hc as <-. vm_compute. reflexivity.
Defined.

(** X3: when the transform is active (the host does not trim itself and
    [trim_trailing_whitespace] is truthy), the document left by a pass
    has the same number of lines, each the trimmed form of the line it
    was: a prefix of it that does not end with a class character. *)
Theorem trim_pass_leaves_no_trailing_whitespace
    (editorTrims : JsVal) (config : JsObject) (d : TextDocument) :
  truthy editorTrims = false ->
  truthy (getProp config trim_trailing_whitespace) = true ->
  lines (afterTrim (trimTrailingWhitespaceTransform editorTrims config d) d)
  = trimTrailingWhitespace <$> lines d
  /\ lineCount (afterTrim (trimTrailingWhitespaceTransform editorTrims config d) d)
     = lineCount d
  /\ forall (i : nat) (text : jsstring),
       lines (afterTrim (trimTrailingWhitespaceTransform editorTrims config d) d) !! i
       = Some text ->
       (exists original, lines d !! i = Some original /\ text `prefix_of` original)
       /\ forall c, last text = Some c -> isTrimClass c = false.
Proof.
  intros Hhost Hflag.
  assert (Hlines :
    lines (afterTrim (trimTrailingWhitespaceTransform editorTrims config d) d)
    = trimTrailingWhitespace <$> lines d).
  { unfold trimTrailingWhitespaceTransform. rewrite Hhost, Hflag. cbn [orb negb].
    unfold afterTrim. cbn [lines].
    pose proof (trim_edits_settled (lines d) []) as Hs.
    cbn [length Nat.add app] in Hs.
    change (fun i : nat => trimLineTrailingWhitespace i)
      with trimLineTrailingWhitespace in Hs.
    exact Hs. }
  split; [exact Hlines|]. split.
  - unfold lineCount. rewrite Hlines. apply length_fmap.
  - intros i text Hi. rewrite Hlines, list_lookup_fmap in Hi.
    destruct (lines d !! i) as [original|] eqn:Ho; [|discriminate].
    simpl in Hi. injection Hi as <-. split.
    + exists original. split; [reflexivity|].
      destruct (trimTrailingWhitespace_split original) as [H1 _].
      eexists. exact H1.
    + intros c. apply trimTrailingWhitespace_last.
Qed.

Lemma trim_pass_leaves_no_trailing_whitespace_witness :
  lines (afterTrim (trimTrailingWhitespaceTransform (JBool false) config_trim
                      document_blanks) document_blanks)
  = trimTrailingWhitespace <$> lines document_blanks.
Proof.
  apply (trim_pass_leaves_no_trailing_whitespace (JBool false) config_trim
           document_blanks); vm_compute; reflexivity.
Defined.

(** X4: the edits of a trim pass are deletions addressed to lines of the
    document, in strictly increasing line order: no line is edited
    twice and no edit lies beyond the last line. *)
Theorem trim_edits_one_per_line_in_order
    (editorTrims : JsVal) (config : JsObject) (d : TextDocument) :
  StronglySorted lt
    (editLine <$> trimTrailingWhitespaceTransform editorTrims config d)
  /\ Forall (fun op => (editLine op < lineCount d)%nat)
       (trimTrailingWhitespaceTransform editorTrims config d).
Proof.
  unfold trimTrailingWhitespaceTransform.
  destruct (truthy editorTrims
            || negb (truthy (getProp config trim_trailing_whitespace)));
    [split; constructor|].
  destruct (trim_edits_sorted (lines d) 0) as [Hs Hb].
  cbn [Nat.add] in Hs, Hb.
  change (fun i : nat => trimLineTrailingWhitespace i)
    with trimLineTrailingWhitespace in Hs, Hb.
  split; [exact Hs|].
  eapply Forall_impl; [exact Hb|]. simpl. unfold lineCount. intros op Hop. lia.
Qed.

Lemma insertFinalNewline_noop_iff_witness :
  insertFinalNewlineTransform config_crlf document_untitled = Normal None.
Proof.
  apply (proj2 (insertFinalNewline_noop_iff config_crlf document_untitled)).
  right. right. vm_compute. reflexivity.
Defined.

Lemma insertFinalNewline_appends_witness :
  insertFinalNewlineTransform config_crlf document_abc
  = Normal (Some (EditInsert (lineCount document_abc - 1)
                    (length (lineAt document_abc (lineCount document_abc - 1)))
                    (JStr (if bool_decide (toLowerCase (js "CRLF") = js "cr")
                           then [13%N]
                           else if bool_decide (toLowerCase (js "CRLF") = js "crlf")
                                then [13; 10]%N
                                else [10%N])))).
Proof.
  apply (insertFinalNewline_appends config_crlf document_abc (js "CRLF")).
  - vm_compute. reflexivity.
  - vm_compute. lia.
  - vm_compute. reflexivity.
  - vm_compute. reflexivity.
Defined.

(** X7: the transform throws exactly when its guards let it through
    ([insert_final_newline] truthy, a non-empty last line) and
    [end_of_line] is not a string; in particular when it is absent. *)
Theorem insertFinalNewline_throws_iff (config : JsObject) (d : TextDocument) :
  insertFinalNewlineTransform config d = ThrowTypeError
  <-> truthy (getProp config insert_final_newline) = true
      /\ (0 < length (lineAt d (lineCount d - 1)))%nat
      /\ forall s : jsstring, getProp config end_of_line <> JStr s.
Proof.
  unfold insertFinalNewlineTransform, newline.
  destruct (truthy (getProp config insert_final_newline)); cbn [negb orb].
  2:{ split; [discriminate | intros [H _]; discriminate]. }
  case_bool_decide as Hn; cbn [orb].
  { split; [discriminate|]. intros (_ & Hlen & _). exfalso.
    unfold lineAt, lineCount in *. rewrite Hn in Hlen.
    destruct (lines d); [simpl in Hlen; lia | discriminate]. }
  case_bool_decide as Hl.
  { split; [discriminate | intros (_ & Hlen & _); lia]. }
  destruct (getProp config end_of_line) as [| | | | |eol|] eqn:He;
    try (split; [intros _; split; [reflexivity|]; split; [lia|];
                 intros s; discriminate
                | reflexivity]).
  split; [discriminate|]. intros (_ & _ & Hs). exfalso. exact (Hs eol eq_refl).
Qed.

Lemma insertFinalNewline_throws_iff_witness :
  insertFinalNewlineTransform (<[end_of_line := JNum 1]> config_final_newline_only)
    document_abc = ThrowTypeError.
Proof.
  apply (proj2 (insertFinalNewline_throws_iff
                  (<[end_of_line := JNum 1]> config_final_newline_only)
                  document_abc)).
  split; [vm_compute; reflexivity|]. split; [vm_compute; lia|].
  intros s. vm_compute. discriminate.
Defined.

(** X8: the transform never deletes and never edits anywhere but at the
    end of the last line: an edit it issues is one insertion, at the
    length of the last line, of the truthy (hence non-empty) value that
    [newline] returned. *)
Theorem insertFinalNewline_only_inserts_at_end
    (config : JsObject) (d : TextDocument) (op : EditOp) :
  insertFinalNewlineTransform config d = Normal (Some op) ->
  exists text : JsVal,
    op = EditInsert (lineCount d - 1) (length (lineAt d (lineCount d - 1))) text
    /\ newline config = Normal text
    /\ truthy text = true
    /\ (0 < lineCount d)%nat
    /\ (0 < length (lineAt d (lineCount d - 1)))%nat.
Proof.
  unfold insertFinalNewlineTransform.
  destruct (negb (truthy (getProp config insert_final_newline))
            || bool_decide (lineCount d = 0%nat)) eqn:Hg; [discriminate|].
  apply orb_false_iff in Hg. destruct Hg as [_ Hn].
  apply bool_decide_eq_false in Hn.
  case_bool_decide as Hl; [discriminate|].
  destruct (newline config) as [text|] eqn:Hnl; [|discriminate].
  intros [= <-]. exists text. split; [reflexivity|]. split; [reflexivity|].
  split; [|split; lia].
  unfold newline in Hnl. destruct (getProp config end_of_line); try discriminate.
  injection Hnl as <-. unfold or_else.
  destruct (truthy (getProp lineEndings (toLowerCase s))) eqn:Ht;
    [exact Ht | reflexivity].
Qed.

Lemma insertFinalNewline_only_inserts_at_end_witness :
  exists text : JsVal,
    EditInsert 0 3 (JStr [13; 10]%N)
    = EditInsert (lineCount document_abc - 1)
        (length (lineAt document_abc (lineCount document_abc - 1))) text
    /\ newline config_crlf = Normal text
    /\ truthy text = true
    /\ (0 < lineCount document_abc)%nat
    /\ (0 < length (lineAt document_abc (lineCount document_abc - 1)))%nat.
Proof.
  apply (insertFinalNewline_only_inserts_at_end config_crlf document_abc).
  vm_compute. reflexivity.
Defined.

Lemma afterTrim_lines (editorTrims : JsVal) (config : JsObject)
    (d : TextDocument) :
  truthy editorTrims = false ->
  truthy (getProp config trim_trailing_whitespace) = true ->
  lines (afterTrim (trimTrailingWhitespaceTransform editorTrims config d) d)
  = trimTrailingWhitespace <$> lines d.
Proof.
  intros Hhost Hflag.
  unfold trimTrailingWhitespaceTransform. rewrite Hhost, Hflag. cbn [orb negb].
  unfold afterTrim. cbn [lines].
  pose proof (trim_edits_settled (lines d) []) as Hs.
  cbn [length Nat.add app] in Hs.
  change (fun i : nat => trimLineTrailingWhitespace i)
    with trimLineTrailingWhitespace in Hs.
  exact Hs.
Qed.

(** The newline transform reads nothing of the document but its lines. *)
Lemma insertFinalNewline_reads_lines_only (config : JsObject)
    (d1 d2 : TextDocument) :
  lines d1 = lines d2 ->
  insertFinalNewlineTransform config d1 = insertFinalNewlineTransform config d2.
Proof.
  intros Hl. unfold insertFinalNewlineTransform, lineCount, lineAt.
  rewrite Hl. reflexivity.
Qed.

Lemma insertFinalNewline_empty_last_line (config : JsObject) (d : TextDocument) :
  length (lineAt d (lineCount d - 1)) = 0%nat ->
  insertFinalNewlineTransform config d = Normal None.
Proof.
  intros Hlen. unfold insertFinalNewlineTransform.
  destruct (negb (truthy (getProp config insert_final_newline))
            || bool_decide (lineCount d = 0%nat)); [reflexivity|].
  rewrite bool_decide_eq_true_2 by lia. reflexivity.
Qed.

(** X9: in the save pipeline the newline transform works on the trimmed
    document.  With the trim transform active, the pipeline of a
    document that has a configuration and a visible editor consists of
    the trim edits and of the newline transform of the document whose
    lines are the trimmed lines, and saves unless that transform threw;
    so a last line made of class characters only is emptied and gets no
    newline, whatever [insert_final_newline] says. *)
Theorem pipeline_newline_after_trim
    (host : Host) (w : World) (d : TextDocument) (config : JsObject)
    (editor : TextEditor) :
  getSettingsForDocument w d = Some config ->
  findEditor (visibleTextEditors host) d = Some editor ->
  truthy (filesTrimTrailingWhitespace host) = false ->
  truthy (getProp config trim_trailing_whitespace) = true ->
  saveTransformations host w d
  = Pipeline
      (trimTrailingWhitespaceTransform (filesTrimTrailingWhitespace host) config d)
      (insertFinalNewlineTransform config
         (mkDocument (fileName d) (isUntitled d)
            (trimTrailingWhitespace <$> lines d)))
      (match insertFinalNewlineTransform config
               (mkDocument (fileName d) (isUntitled d)
                  (trimTrailingWhitespace <$> lines d)) with
       | Normal _ => true
       | ThrowTypeError => false
       end)
  /\ (forallb isTrimClass (lineAt d (lineCount d - 1)) = true ->
      insertFinalNewlineTransform config
        (mkDocument (fileName d) (isUntitled d)
           (trimTrailingWhitespace <$> lines d))
      = Normal None).
Proof.
  intros Hcfg Hed Hhost Hflag.
  pose proof (afterTrim_lines (filesTrimTrailingWhitespace host) config d
                Hhost Hflag) as Hlines.
  split.
  - unfold saveTransformations. rewrite Hcfg, Hed.
    assert (Hdoc :
      insertFinalNewlineTransform config
        (afterTrim (trimTrailingWhitespaceTransform
                      (filesTrimTrailingWhitespace host) config d) d)
      = insertFinalNewlineTransform config
          (mkDocument (fileName d) (isUntitled d)
             (trimTrailingWhitespace <$> lines d))).
    { apply insertFinalNewline_reads_lines_only. exact Hlines. }
    rewrite Hdoc. reflexivity.
  - intros Hblank. apply insertFinalNewline_empty_last_line.
    unfold lineAt, lineCount, mkDocument. cbn [lines]. rewrite length_fmap.
    rewrite list_lookup_fmap.
    unfold lineAt, lineCount in Hblank.
    destruct (lines d !! (length (lines d) - 1)%nat) as [t|]; [|reflexivity].
    simpl in *. rewrite (trim_all_class t Hblank). reflexivity.
Qed.

Lemma pipeline_newline_after_trim_witness :
  saveTransformations host_sample
    (settle host_sample parse_sample (js "/work/.editorconfig") world_initial).1
    document_editorconfig
  = Pipeline
      (trimTrailingWhitespaceTransform (filesTrimTrailingWhitespace host_sample)
         (normalizeIndentSize config_tab_8) document_editorconfig)
      (insertFinalNewlineTransform (normalizeIndentSize config_tab_8)
         (mkDocument (fileName document_editorconfig)
            (isUntitled document_editorconfig)
            (trimTrailingWhitespace <$> lines document_editorconfig)))
      (match insertFinalNewlineTransform (normalizeIndentSize config_tab_8)
               (mkDocument (fileName document_editorconfig)
                  (isUntitled document_editorconfig)
                  (trimTrailingWhitespace <$> lines document_editorconfig)) with
       | Normal _ => true
       | ThrowTypeError => false
       end).
Proof.
  apply (proj1 (pipeline_newline_after_trim host_sample
                  (settle host_sample parse_sample (js "/work/.editorconfig")
                     world_initial).1
                  document_editorconfig (normalizeIndentSize config_tab_8)
                  editor_1
                  ltac:(vm_compute; reflexivity) ltac:(vm_compute; reflexivity)
                  ltac:(vm_compute; reflexivity) ltac:(vm_compute; reflexivity))).
Defined.

(** A last line of blanks is emptied and receives no newline. *)
Example pipeline_blank_last_line :
  saveTransformations
    (mkHost [document_blank_tail] [mkEditor 2 document_blank_tail] None
       defaults_2_spaces (JBool false) false)
    (settle host_sample parse_sample (js "/work/d.txt") world_initial).1
    document_blank_tail
  = Pipeline [EditDelete 1 0 2] (Normal None) true.
Proof. vm_compute. reflexivity. Qed.

(* ===================================================================== *)
(** ** Further properties of the settings translation *)
(* ===================================================================== *)

Section UtilsFacts.

Lemma fromEditorConfig_space (v : JsVal) (defaults : EditorSettings) :
  Utils.fromEditorConfig
    (<[indent_size := v]> (<[indent_style := JStr (js "space")]> ∅)) defaults
  = mkSettings (or_else v (tabSize defaults)) (JBool true).
Proof.
  unfold Utils.fromEditorConfig, getProp.
  rewrite (lookup_insert_ne _ indent_size indent_style) by (vm_compute; discriminate).
  rewrite lookup_insert_eq.
  rewrite (lookup_insert_ne _ indent_size tab_width) by (vm_compute; discriminate).
  rewrite (lookup_insert_ne _ indent_style tab_width) by (vm_compute; discriminate).
  rewrite lookup_empty, lookup_insert_eq.
  reflexivity.
Qed.

Lemma fromEditorConfig_tab (v : JsVal) (defaults : EditorSettings) :
  Utils.fromEditorConfig
    (<[tab_width := v]> (<[indent_style := JStr (js "tab")]> ∅)) defaults
  = mkSettings (or_else v (tabSize defaults)) (JBool false).
Proof.
  unfold Utils.fromEditorConfig, getProp.
  rewrite (lookup_insert_ne _ tab_width indent_style) by (vm_compute; discriminate).
  rewrite lookup_insert_eq.
  rewrite (lookup_insert_ne _ tab_width indent_size) by (vm_compute; discriminate).
  rewrite (lookup_insert_ne _ indent_style indent_size) by (vm_compute; discriminate).
  rewrite lookup_empty, lookup_insert_eq.
  reflexivity.
Qed.

Lemma fromEditorConfig_nothing (defaults : EditorSettings) :
  Utils.fromEditorConfig ∅ defaults = defaults.
Proof. destruct defaults. reflexivity. Qed.

Lemma strict_eq_literal (v lit : JsVal) :
  lit <> JNaN -> strict_eq v lit = bool_decide (v = lit).
Proof.
  intros Hl. unfold strict_eq.
  destruct v, lit; try reflexivity; try congruence;
    symmetry; apply bool_decide_eq_false; discriminate.
Qed.

Lemma numberToString_not_auto (z : Z) : numberToString z <> js "auto".
Proof.
  intros Heq. pose proof (parseInt10_numberToString z) as Hp.
  rewrite Heq in Hp. vm_compute in Hp. discriminate.
Qed.

Lemma resolveTabSize_number (z : Z) : Utils.resolveTabSize (JNum z) = JNum z.
Proof. unfold Utils.resolveTabSize. simpl. apply parseInt10_numberToString. Qed.

Lemma resolveTabSize_digits (z : Z) :
  Utils.resolveTabSize (JStr (numberToString z)) = JNum z.
Proof.
  unfold Utils.resolveTabSize. rewrite strict_eq_literal by discriminate.
  rewrite bool_decide_eq_false_2.
  - simpl. apply parseInt10_numberToString.
  - intros [= H]. exact (numberToString_not_auto z H).
Qed.

Lemma toEditorConfig_true (t : JsVal) :
  Utils.toEditorConfig (mkSettings t (JBool true))
  = <[indent_size := Utils.resolveTabSize t]>
      (<[indent_style := JStr (js "space")]> ∅).
Proof. reflexivity. Qed.

Lemma toEditorConfig_false_or_auto (t i : JsVal) :
  i = JBool false \/ i = JStr (js "auto") ->
  Utils.toEditorConfig (mkSettings t i)
  = <[tab_width := Utils.resolveTabSize t]>
      (<[indent_style := JStr (js "tab")]> ∅).
Proof. intros [-> | ->]; reflexivity. Qed.

Lemma toEditorConfig_other (t i : JsVal) :
  i <> JBool true -> i <> JBool false -> i <> JStr (js "auto") ->
  Utils.toEditorConfig (mkSettings t i) = ∅.
Proof.
  intros Ht Hf Ha. unfold Utils.toEditorConfig. cbn [insertSpaces].
  rewrite !strict_eq_literal by discriminate.
  rewrite !bool_decide_eq_false_2 by assumption. reflexivity.
Qed.

End UtilsFacts.

(** X10: the mapping [toEditorConfig] returns holds properties among
    [indent_style], [indent_size] and [tab_width] only, never both
    [indent_size] and [tab_width]; whichever of the two it holds is a
    number or [NaN], and comes with the matching [indent_style]. *)
Theorem toEditorConfig_keys (options : EditorSettings) :
  (forall k, is_Some (Utils.toEditorConfig options !! k) ->
             k = indent_style \/ k = indent_size \/ k = tab_width)
  /\ (Utils.toEditorConfig options !! indent_size = None
      \/ Utils.toEditorConfig options !! tab_width = None)
  /\ (forall v, Utils.toEditorConfig options !! indent_size = Some v ->
        (v = JNaN \/ exists z, v = JNum z)
        /\ Utils.toEditorConfig options !! indent_style = Some (JStr (js "space")))
  /\ (forall v, Utils.toEditorConfig options !! tab_width = Some v ->
        (v = JNaN \/ exists z, v = JNum z)
        /\ Utils.toEditorConfig options !! indent_style = Some (JStr (js "tab"))).
Proof.
  assert (Hnum : forall t, Utils.resolveTabSize t = JNaN
                           \/ exists z, Utils.resolveTabSize t = JNum z).
  { intros t. unfold Utils.resolveTabSize.
    destruct (strict_eq t (JStr (js "auto"))); [right; eexists; reflexivity|].
    unfold parseInt10.
    destruct (match skipWhiteSpace (toString t) with
              | 45%N :: r => (-1, r)
              | 43%N :: r => (1, r)
              | _ => (1, skipWhiteSpace (toString t))
              end) as [sign u].
    destruct (startsWithDigit u); [right; eexists; reflexivity | left; reflexivity]. }
  destruct options as [t i].
  destruct (decide (i = JBool true)) as [-> | Ht].
  { rewrite toEditorConfig_true. split; [|split; [|split]].
    - intros k [v Hk]. apply lookup_insert_Some in Hk.
      destruct Hk as [[<- _] | [_ Hk]]; [right; left; reflexivity|].
      apply lookup_insert_Some in Hk.
      destruct Hk as [[<- _] | [_ Hk]]; [left; reflexivity|].
      rewrite lookup_empty in Hk. discriminate.
    - right. vm_compute. reflexivity.
    - intros v Hv. rewrite lookup_insert_eq in Hv. injection Hv as <-.
      split; [destruct (Hnum t) as [-> | [z ->]]; eauto|].
      rewrite lookup_insert_ne by (vm_compute; discriminate).
      apply lookup_insert_eq.
    - intros v Hv. exfalso.
      rewrite lookup_insert_ne in Hv by (vm_compute; discriminate).
      rewrite lookup_insert_ne in Hv by (vm_compute; discriminate).
      rewrite lookup_empty in Hv. discriminate. }
  destruct (decide (i = JBool false \/ i = JStr (js "auto"))) as [Hfa | Hfa].
  { rewrite (toEditorConfig_false_or_auto t i Hfa). split; [|split; [|split]].
    - intros k [v Hk]. apply lookup_insert_Some in Hk.
      destruct Hk as [[<- _] | [_ Hk]]; [right; right; reflexivity|].
      apply lookup_insert_Some in Hk.
      destruct Hk as [[<- _] | [_ Hk]]; [left; reflexivity|].
      rewrite lookup_empty in Hk. discriminate.
    - left. vm_compute. reflexivity.
    - intros v Hv. exfalso.
      rewrite lookup_insert_ne in Hv by (vm_compute; discriminate).
      rewrite lookup_insert_ne in Hv by (vm_compute; discriminate).
      rewrite lookup_empty in Hv. discriminate.
    - intros v Hv. rewrite lookup_insert_eq in Hv. injection Hv as <-.
      split; [destruct (Hnum t) as [-> | [z ->]]; eauto|].
      rewrite lookup_insert_ne by (vm_compute; discriminate).
      apply lookup_insert_eq. }
  rewrite toEditorConfig_other by tauto.
  split; [|split; [|split]].
  - intros k [v Hk]. rewrite lookup_empty in Hk. discriminate.
  - left. apply lookup_empty.
  - intros v Hv. rewrite lookup_empty in Hv. discriminate.
  - intros v Hv. rewrite lookup_empty in Hv. discriminate.
Qed.

(** X11: what comes back from [fromEditorConfig] after [toEditorConfig].
    For [insertSpaces] among [true], [false] and ["auto"] the result has
    [insertSpaces] equal to the boolean [insertSpaces === true] (so
    ["auto"] comes back as [false]) and [tabSize] equal to
    [resolveTabSize(tabSize)] when that is truthy and to the default
    otherwise (so [0] and an unparsable size come back as the default);
    for any other [insertSpaces] the result is the defaults. *)
Theorem fromEditorConfig_after_toEditorConfig
    (t i : JsVal) (defaults : EditorSettings) :
  (i = JBool true \/ i = JBool false \/ i = JStr (js "auto") ->
   Utils.fromEditorConfig (Utils.toEditorConfig (mkSettings t i)) defaults
   = mkSettings (or_else (Utils.resolveTabSize t) (tabSize defaults))
                (JBool (bool_decide (i = JBool true))))
  /\ (i <> JBool true -> i <> JBool false -> i <> JStr (js "auto") ->
      Utils.fromEditorConfig (Utils.toEditorConfig (mkSettings t i)) defaults
      = defaults).
Proof.
  split.
  - intros [-> | Hfa].
    + rewrite toEditorConfig_true, fromEditorConfig_space. reflexivity.
    + rewrite (toEditorConfig_false_or_auto t i Hfa), fromEditorConfig_tab.
      destruct Hfa as [-> | ->]; reflexivity.
  - intros Ht Hf Ha. rewrite toEditorConfig_other by assumption.
    apply fromEditorConfig_nothing.
Qed.

Lemma fromEditorConfig_after_toEditorConfig_witness :
  Utils.fromEditorConfig
    (Utils.toEditorConfig (mkSettings (JNum 0) (JStr (js "auto"))))
    defaults_2_spaces
  = mkSettings (or_else (Utils.resolveTabSize (JNum 0)) (tabSize defaults_2_spaces))
               (JBool (bool_decide (JStr (js "auto") = JBool true)))
  /\ Utils.fromEditorConfig
       (Utils.toEditorConfig (mkSettings (JNum 8) JUndefined)) defaults_2_spaces
     = defaults_2_spaces.
Proof.
  split.
  - apply (proj1 (fromEditorConfig_after_toEditorConfig (JNum 0)
                    (JStr (js "auto")) defaults_2_spaces)).
    right. right. reflexivity.
  - apply (proj2 (fromEditorConfig_after_toEditorConfig (JNum 8) JUndefined
                    defaults_2_spaces)); discriminate.
Defined.

(** X12: a boolean [insertSpaces] and a non-zero integral [tabSize],
    given as a number or as its decimal digits, survive the round trip
    through [toEditorConfig] and [fromEditorConfig] whatever the
    defaults are. *)
Theorem round_trip_boolean_and_size
    (b : bool) (n : Z) (defaults : EditorSettings) :
  n <> 0 ->
  Z.abs n <= MAX_SAFE_INTEGER ->
  Utils.fromEditorConfig
    (Utils.toEditorConfig (mkSettings (JNum n) (JBool b))) defaults
  = mkSettings (JNum n) (JBool b)
  /\ Utils.fromEditorConfig
       (Utils.toEditorConfig (mkSettings (JStr (numberToString n)) (JBool b)))
       defaults
     = mkSettings (JNum n) (JBool b).
Proof.
  intros Hn _.
  assert (Hor : or_else (JNum n) (tabSize defaults) = JNum n).
  { unfold or_else. simpl. apply Z.eqb_neq in Hn. rewrite Hn. reflexivity. }
  destruct b.
  - rewrite !toEditorConfig_true, !fromEditorConfig_space.
    rewrite resolveTabSize_number, resolveTabSize_digits, Hor. split; reflexivity.
  - rewrite !(toEditorConfig_false_or_auto _ (JBool false)) by (left; reflexivity).
    rewrite !fromEditorConfig_tab.
    rewrite resolveTabSize_number, resolveTabSize_digits, Hor. split; reflexivity.
Qed.

Lemma round_trip_boolean_and_size_witness :
  Utils.fromEditorConfig
    (Utils.toEditorConfig (mkSettings (JNum 3) (JBool false))) defaults_2_spaces
  = mkSettings (JNum 3) (JBool false)
  /\ Utils.fromEditorConfig
       (Utils.toEditorConfig (mkSettings (JStr (numberToString 3)) (JBool false)))
       defaults_2_spaces
     = mkSettings (JNum 3) (JBool false).
Proof.
  apply (round_trip_boolean_and_size false 3 defaults_2_spaces).
  - discriminate.
  - vm_compute. discriminate.
Defined.

Section ParseFacts.

Lemma skipWhiteSpace_app (ws x : jsstring) :
  forallb isWhiteSpace ws = true ->
  skipWhiteSpace (ws ++ x) = skipWhiteSpace x.
Proof.
  induction ws as [|c r IH]; [reflexivity|].
  simpl. intros H. apply andb_true_iff in H. destruct H as [Hc Hr].
  rewrite Hc. apply IH. exact Hr.
Qed.

Lemma parseDigits_app_stop (ds rest : jsstring) (acc : Z) :
  Forall (fun c => isDigit c = true) ds ->
  startsWithDigit rest = false ->
  parseDigits acc (ds ++ rest) = parseDigits acc ds.
Proof.
  intros Hds Hrest. revert acc.
  induction Hds as [|c r Hc Hr IH]; intros acc.
  - simpl. destruct rest as [|x rest']; [reflexivity|].
    simpl in Hrest |- *. rewrite Hrest. reflexivity.
  - simpl. rewrite Hc. apply IH.
Qed.

(** [parseInt] reads an optional minus sign and the digits of a number
    and stops at whatever follows them. *)
Lemma parseInt10_number_then (z : Z) (rest : jsstring) :
  startsWithDigit rest = false ->
  parseInt10 (numberToString z ++ rest) = JNum z.
Proof.
  intros Hrest.
  assert (Hdig : forall n, 0 <= n ->
    exists c r, digitsOf (S (Z.to_nat n)) n = c :: r
                /\ isDigit c = true
                /\ Forall (fun x => isDigit x = true) (c :: r)
                /\ parseDigits 0 (c :: r) = n).
  { intros n Hn.
    pose proof (digitsOf_digits (S (Z.to_nat n)) n Hn) as Hd.
    pose proof (digitsOf_nonempty (Z.to_nat n) n) as Hne.
    pose proof (parseDigits_digitsOf (S (Z.to_nat n)) n Hn ltac:(lia)) as Hp.
    destruct (digitsOf (S (Z.to_nat n)) n) as [|c r]; [congruence|].
    exists c, r. split; [reflexivity|].
    pose proof Hd as Hd'. apply Forall_cons in Hd'. destruct Hd' as [Hc _].
    repeat split; assumption. }
  unfold numberToString. destruct (z <? 0) eqn:Hz.
  - apply Z.ltb_lt in Hz.
    destruct (Hdig (- z) ltac:(lia)) as (c & r & -> & Hc & Hall & Hval).
    unfold parseInt10.
    change (skipWhiteSpace ((45%N :: c :: r) ++ rest)) with (45%N :: (c :: r) ++ rest).
    cbn iota. cbn [startsWithDigit app]. rewrite Hc.
    change (c :: r ++ rest) with ((c :: r) ++ rest).
    rewrite (parseDigits_app_stop _ _ _ Hall Hrest), Hval. f_equal. lia.
  - apply Z.ltb_ge in Hz.
    destruct (Hdig z Hz) as (c & r & -> & Hc & Hall & Hval).
    unfold parseInt10. cbn [app skipWhiteSpace].
    rewrite (isDigit_not_space c Hc).
    assert (Hsel :
      match c :: r ++ rest with
      | 45%N :: r0 => (-1, r0)
      | 43%N :: r0 => (1, r0)
      | _ => (1, c :: r ++ rest)
      end = (1, c :: r ++ rest)).
    { assert (c <> 45%N /\ c <> 43%N) as [H45 H43].
      { unfold isDigit in Hc. apply andb_true_iff in Hc. destruct Hc as [Hc _].
        apply N.leb_le in Hc. lia. }
      destruct c as [|p]; [reflexivity|].
      do 6 (destruct p as [p|p|]; try reflexivity); congruence. }
    rewrite Hsel. cbn [startsWithDigit]. rewrite Hc.
    change (c :: r ++ rest) with ((c :: r) ++ rest).
    rewrite (parseDigits_app_stop _ _ _ Hall Hrest), Hval. f_equal. lia.
Qed.

End ParseFacts.

(** X13: [resolveTabSize] reads a size out of a string the way
    [parseInt] does: leading white space is skipped and whatever follows
    the digits of the (safe) integer, a unit for instance, is ignored. *)
Theorem resolveTabSize_ignores_surroundings (ws rest : jsstring) (n : Z) :
  forallb isWhiteSpace ws = true ->
  startsWithDigit rest = false ->
  Z.abs n <= MAX_SAFE_INTEGER ->
  Utils.resolveTabSize (JStr (ws ++ numberToString n ++ rest)) = JNum n.
Proof.
  intros Hws Hrest _.
  assert (Hparse : parseInt10 (ws ++ numberToString n ++ rest) = JNum n).
  { unfold parseInt10. rewrite (skipWhiteSpace_app _ _ Hws).
    exact (parseInt10_number_then n rest Hrest). }
  unfold Utils.resolveTabSize.
  destruct (strict_eq (JStr (ws ++ numberToString n ++ rest)) (JStr (js "auto")))
    eqn:Hs.
  - exfalso. unfold strict_eq in Hs. apply bool_decide_eq_true in Hs.
    injection Hs as Hs. rewrite Hs in Hparse. vm_compute in Hparse. discriminate.
  - exact Hparse.
Qed.

Lemma resolveTabSize_ignores_surroundings_witness :
  Utils.resolveTabSize (JStr (js "  " ++ numberToString 4 ++ js "px")) = JNum 4.
Proof.
  apply (resolveTabSize_ignores_surroundings (js "  ") (js "px") 4).
  - vm_compute. reflexivity.
  - vm_compute. reflexivity.
  - vm_compute. discriminate.
Defined.

(* ===================================================================== *)
(** ** Further properties of the document watcher *)
(* ===================================================================== *)

Section CacheFacts.

Lemma titledPaths_elem (documents : list TextDocument) (d : TextDocument) :
  d ∈ documents -> isUntitled d = false -> fileName d ∈ titledPaths documents.
Proof.
  intros Hd Hu. unfold titledPaths. apply list_elem_of_omap.
  exists d. split; [exact Hd|]. rewrite Hu. reflexivity.
Qed.

Lemma getProp_insert_ne (o : JsObject) (k k' : jsstring) (v : JsVal) :
  k <> k' -> getProp (<[k := v]> o) k' = getProp o k'.
Proof. intros Hne. unfold getProp. rewrite lookup_insert_ne by exact Hne. reflexivity. Qed.

Lemma getProp_insert_eq (o : JsObject) (k : jsstring) (v : JsVal) :
  getProp (<[k := v]> o) k = v.
Proof. unfold getProp. rewrite lookup_insert_eq. reflexivity. Qed.

(** After the synchronous part of a rebuild: an empty map, the defaults
    and the editors as they were, one more event, and a pending parse
    for each titled document. *)
Lemma rebuild_started (host : Host) (w : World) :
  _rebuildConfigMap host w
  = (emit MapCleared (withMap ∅ w),
     (fun d => if isUntitled d then Resolved else AwaitingParse (fileName d))
       <$> textDocuments host).
Proof. unfold _rebuildConfigMap. apply openAll_fresh. reflexivity. Qed.

End CacheFacts.

(** X14: the rewrite of the parse callback is idempotent and touches
    [indent_size] only: every other property of the resolved
    configuration is stored as the parser gave it. *)
Theorem normalizeIndentSize_idempotent_frame (config : JsObject) :
  normalizeIndentSize (normalizeIndentSize config) = normalizeIndentSize config
  /\ forall k, k <> indent_size -> normalizeIndentSize config !! k = config !! k.
Proof.
  split.
  - unfold normalizeIndentSize at 2 3.
    destruct (strict_eq (getProp config indent_size) (JStr (js "tab"))) eqn:Hs.
    + unfold normalizeIndentSize.
      rewrite getProp_insert_eq.
      rewrite (getProp_insert_ne config indent_size tab_width)
        by (vm_compute; discriminate).
      destruct (strict_eq (getProp config tab_width) (JStr (js "tab")));
        [apply insert_insert_eq | reflexivity].
    + unfold normalizeIndentSize. rewrite Hs. reflexivity.
  - intros k Hk. unfold normalizeIndentSize.
    destruct (strict_eq (getProp config indent_size) (JStr (js "tab")));
      [apply lookup_insert_ne; congruence | reflexivity].
Qed.

(** X15: a settlement concerns its own path only.  The entries of all
    other paths and the defaults are as before; a rejection changes
    neither the map nor the options of any editor. *)
Theorem settle_touches_own_path_only
    (host : Host) (parse : jsstring -> option JsObject) (path : jsstring)
    (w : World) :
  (forall p, p <> path ->
     _documentToConfigMap (watcher (settle host parse path w).1) !! p
     = _documentToConfigMap (watcher w) !! p)
  /\ _defaults (watcher (settle host parse path w).1) = _defaults (watcher w)
  /\ (parse path = None ->
      watcher (settle host parse path w).1 = watcher w
      /\ editorOptions (settle host parse path w).1 = editorOptions w
      /\ (settle host parse path w).2 = false).
Proof.
  destruct (settle host parse path w) as [w1 ok] eqn:Hs. cbn [fst snd].
  pose proof Hs as Hspec. apply settle_spec in Hspec.
  destruct Hspec as (Hok & Hmap & Hdef & _).
  split; [|split; [exact Hdef|]].
  - intros p Hp. rewrite Hmap.
    destruct (parse path); [apply lookup_insert_ne; congruence | reflexivity].
  - intros Hnone. unfold settle in Hs. rewrite Hnone in Hs.
    injection Hs as <- <-. repeat split; reflexivity.
Qed.

Lemma settle_touches_own_path_only_witness :
  watcher (settle host_with_broken parse_sample (js "/broken/c.txt")
             world_initial).1
  = watcher world_initial
  /\ editorOptions (settle host_with_broken parse_sample (js "/broken/c.txt")
                      world_initial).1
     = editorOptions world_initial
  /\ (settle host_with_broken parse_sample (js "/broken/c.txt") world_initial).2
     = false.
Proof.
  apply (proj2 (proj2 (settle_touches_own_path_only host_with_broken parse_sample
                         (js "/broken/c.txt") world_initial))).
  vm_compute. reflexivity.
Defined.

(** X16: the map a set of resolutions leaves does not depend on the
    order in which the parses settle, nor does the outcome of their
    [Promise.all]: two schedules that let every parse settle end with
    the same map and the same rejection flag. *)
Theorem settleAll_order_independent
    (host : Host) (parse : jsstring -> option JsObject)
    (choices1 choices2 : list nat) (a : Aggregate) (w : World) :
  (length (awaited a) <= length choices1)%nat ->
  (length (awaited a) <= length choices2)%nat ->
  _documentToConfigMap (watcher (settleAll host parse choices1 a w).1)
  = _documentToConfigMap (watcher (settleAll host parse choices2 a w).1)
  /\ rejected (settleAll host parse choices1 a w).2
     = rejected (settleAll host parse choices2 a w).2.
Proof.
  intros H1 H2.
  pose proof (settleAll_drains host parse choices1 a w H1) as Hd1.
  pose proof (settleAll_drains host parse choices2 a w H2) as Hd2.
  destruct (settleAll host parse choices1 a w) as [w1 a1] eqn:Hr1.
  destruct (settleAll host parse choices2 a w) as [w2 a2] eqn:Hr2.
  cbn [fst snd] in *.
  apply settleAll_spec in Hr1. apply settleAll_spec in Hr2.
  destruct Hr1 as (s1 & _ & Hp1 & _ & _ & _ & Hj1 & Hm1 & _).
  destruct Hr2 as (s2 & _ & Hp2 & _ & _ & _ & Hj2 & Hm2 & _).
  rewrite Hd1, app_nil_r in Hp1. rewrite Hd2, app_nil_r in Hp2.
  assert (Hsame : forall p, p ∈ s1 <-> p ∈ s2)
    by (intros p; rewrite <- Hp1, <- Hp2; reflexivity).
  split.
  - apply map_eq. intros p. rewrite Hm1, Hm2.
    destruct (decide (p ∈ s1)) as [Hin | Hnin].
    + rewrite decide_True by (apply Hsame; exact Hin). reflexivity.
    + rewrite decide_False by (intros Hin; apply Hnin, Hsame; exact Hin).
      reflexivity.
  - assert (Hiff : rejected a1 = false <-> rejected a2 = false).
    { rewrite Hj1, Hj2. split; intros [Hr Hall]; (split; [exact Hr|]);
        intros p Hp; apply Hall, Hsame; exact Hp. }
    destruct (rejected a1), (rejected a2); try reflexivity.
    + destruct Hiff as [_ Hb]. specialize (Hb eq_refl). discriminate.
    + destruct Hiff as [Hf _]. specialize (Hf eq_refl). discriminate.
Qed.

Lemma settleAll_order_independent_witness :
  _documentToConfigMap
    (watcher (settleAll host_with_broken parse_sample [0; 0; 0]%nat
                {| awaited := titledPaths (textDocuments host_with_broken);
                   rejected := false |} world_initial).1)
  = _documentToConfigMap
      (watcher (settleAll host_with_broken parse_sample [2; 1; 5]%nat
                  {| awaited := titledPaths (textDocuments host_with_broken);
                     rejected := false |} world_initial).1)
  /\ rejected (settleAll host_with_broken parse_sample [0; 0; 0]%nat
                 {| awaited := titledPaths (textDocuments host_with_broken);
                    rejected := false |} world_initial).2
     = rejected (settleAll host_with_broken parse_sample [2; 1; 5]%nat
                   {| awaited := titledPaths (textDocuments host_with_broken);
                      rejected := false |} world_initial).2.
Proof.
  apply (settleAll_order_independent host_with_broken parse_sample
           [0; 0; 0]%nat [2; 1; 5]%nat
           {| awaited := titledPaths (textDocuments host_with_broken);
              rejected := false |} world_initial).
  - vm_compute. lia.
  - vm_compute. lia.
Defined.

(** X17: [_onDidOpenDocument] never re-resolves and never touches the
    watcher by itself.  For a path that names no member of
    [Object.prototype], it starts a parse exactly when the document is
    titled and its path has no entry, and for that path; an untitled
    document leaves everything as it is. *)
Theorem onDidOpenDocument_resolves_once
    (host : Host) (d : TextDocument) (w : World) :
  watcher (_onDidOpenDocument host d w).1 = watcher w
  /\ (namesNoInheritedMember (fileName d) ->
      forall p,
        (_onDidOpenDocument host d w).2 = AwaitingParse p
        <-> isUntitled d = false
            /\ _documentToConfigMap (watcher w) !! fileName d = None
            /\ p = fileName d)
  /\ (isUntitled d = true -> _onDidOpenDocument host d w = (w, Resolved)).
Proof.
  unfold _onDidOpenDocument. destruct (isUntitled d).
  - split; [reflexivity|]. split; [|reflexivity].
    intros _ p. split; [discriminate | intros [H _]; discriminate].
  - destruct (_documentToConfigMap (watcher w) !! fileName d) as [c|] eqn:Hc.
    + split; [apply applyEditorConfig_watcher|]. split; [|discriminate].
      intros _ p. split; [discriminate | intros (_ & H & _); discriminate].
    + split; [reflexivity|]. split; [|discriminate].
      intros _ p. cbn [snd]. split.
      * intros [= <-]. repeat split; reflexivity.
      * intros (_ & _ & ->). reflexivity.
Qed.

Lemma onDidOpenDocument_resolves_once_witness :
  (_onDidOpenDocument host_sample document_blanks world_initial).2
  = AwaitingParse (js "/work/b.txt")
  /\ _onDidOpenDocument host_sample document_untitled world_initial
     = (world_initial, Resolved).
Proof.
  destruct (onDidOpenDocument_resolves_once host_sample document_blanks
              world_initial) as (_ & Hstart & _).
  split.
  - apply Hstart; [vm_compute; reflexivity|].
    split; [reflexivity|]. split; [vm_compute; reflexivity | reflexivity].
  - apply (proj2 (proj2 (onDidOpenDocument_resolves_once host_sample
                           document_untitled world_initial))).
    reflexivity.
Defined.





(** The options the sample resolution gives the active editor: spaces,
    and the [tab_width] that replaced the marker. *)
Example sample_resolution_options :
  editorOptions (settle host_sample parse_sample (js "/work/.editorconfig")
                   world_initial).1 !! 1%nat
  = Some (mkSettings (JNum 8) (JBool true)).
Proof. vm_compute. reflexivity. Qed.



(** X21: when every titled open document resolves and every parse has
    settled, saving an open, titled configuration file that a visible
    editor shows does run the transforms on it, as the last thing the
    handler does. *)
Theorem config_file_transforms_run_after_rebuild
    (host : Host) (parse : jsstring -> option JsObject) (choices : list nat)
    (savedDocument : TextDocument) (w : World) (editor : TextEditor) :
  basename (isWindows host) (fileName savedDocument) = js ".editorconfig" ->
  (forall p, p ∈ titledPaths (textDocuments host) -> is_Some (parse p)) ->
  (length (titledPaths (textDocuments host)) <= length choices)%nat ->
  savedDocument ∈ textDocuments host ->
  isUntitled savedDocument = false ->
  findEditor (visibleTextEditors host) savedDocument = Some editor ->
  exists (evs : list Event) trims final saved,
    trace (onDidSaveTextDocument host parse choices savedDocument w)
    = trace w ++ MapCleared :: evs
              ++ [TransformsRun (fileName savedDocument) trims final saved]
    /\ Forall (fun ev => isResolutionEvent ev = true) evs.
Proof.
  intros Hname Hall Hlen Hin Htitled Hed. unfold onDidSaveTextDocument.
  rewrite bool_decide_eq_true_2 by exact Hname.
  rewrite rebuild_started, pendingPaths_fresh.
  pose proof (settleAll_drains host parse choices
                {| awaited := titledPaths (textDocuments host); rejected := false |}
                (emit MapCleared (withMap ∅ w)) Hlen) as Hdrain.
  destruct (settleAll host parse choices
              {| awaited := titledPaths (textDocuments host); rejected := false |}
              (emit MapCleared (withMap ∅ w))) as [w2 a'] eqn:Hrun.
  cbn [snd] in Hdrain.
  apply settleAll_spec in Hrun.
  destruct Hrun as (settled & evs & Hperm & Htr & Hev & _ & Hrej & Hmap & _).
  cbn [awaited rejected emit withMap trace watcher _documentToConfigMap]
    in Hperm, Htr, Hrej, Hmap.
  rewrite Hdrain, app_nil_r in Hperm.
  assert (Hok : rejected a' = false).
  { apply Hrej. split; [reflexivity|]. intros p Hp. apply Hall.
    rewrite Hperm. exact Hp. }
  assert (Hful : fulfilled a' = true).
  { unfold fulfilled. rewrite Hdrain, Hok. reflexivity. }
  rewrite Hful.
  pose proof (titledPaths_elem _ _ Hin Htitled) as Hpath.
  destruct (Hall _ Hpath) as [config Hconfig].
  assert (Hentry : getSettingsForDocument w2 savedDocument
                   = Some (normalizeIndentSize config)).
  { unfold getSettingsForDocument. rewrite Hmap.
    rewrite decide_True by (rewrite <- Hperm; exact Hpath).
    rewrite Hconfig. reflexivity. }
  unfold applyOnSaveTransformations, saveTransformations.
  rewrite Hentry, Hed. cbn [emit trace].
  eexists evs, _, _, _. split; [|exact Hev].
  rewrite Htr, <- !app_assoc. reflexivity.
Qed.

Lemma config_file_transforms_run_after_rebuild_witness :
  exists (evs : list Event) trims final saved,
    trace (onDidSaveTextDocument host_sample parse_sample [1; 0]%nat
             document_editorconfig world_initial)
    = trace world_initial ++ MapCleared :: evs
        ++ [TransformsRun (fileName document_editorconfig) trims final saved]
    /\ Forall (fun ev => isResolutionEvent ev = true) evs.
Proof.
  apply (config_file_transforms_run_after_rebuild host_sample parse_sample
           [1; 0]%nat document_editorconfig world_initial editor_1).
  - vm_compute. reflexivity.
  - intros p Hp.
    assert (Ht : titledPaths (textDocuments host_sample)
                 = [js "/work/.editorconfig"; js "/work/b.txt"])
      by (vm_compute; reflexivity).
    rewrite Ht in Hp.
    apply elem_of_cons in Hp. destruct Hp as [-> | Hp];
      [exists config_tab_8; vm_compute; reflexivity|].
    apply elem_of_cons in Hp. destruct Hp as [-> | Hp];
      [exists config_tab_8; vm_compute; reflexivity|].
    apply elem_of_nil in Hp. contradiction.
  - vm_compute. lia.
  - apply list_elem_of_here.
  - reflexivity.
  - vm_compute. reflexivity.
Defined.

(** X22: [findEditor] returns the first visible editor whose document
    is the given one, and none exactly when no visible editor shows that
    document; an editor whose document only shares the path, another
    resource with the same [fileName], is never returned. *)
Theorem findEditor_sound_complete
    (visible : list TextEditor) (textDocument : TextDocument) :
  (forall editor, findEditor visible textDocument = Some editor ->
     uri (document editor) = uri textDocument
     /\ exists before after,
          visible = before ++ editor :: after
          /\ forall e, e ∈ before -> uri (document e) <> uri textDocument)
  /\ (findEditor visible textDocument = None
      <-> forall editor, editor ∈ visible ->
            uri (document editor) <> uri textDocument).
Proof.
  unfold findEditor. split.
  - induction visible as [|e rest IH]; intros editor Hf; [discriminate|].
    simpl in Hf. case_bool_decide as He.
    + injection Hf as <-. split; [exact He|].
      exists [], rest. split; [reflexivity|].
      intros e' Hin. apply elem_of_nil in Hin. contradiction.
    + destruct (IH editor Hf) as (Hu & before & after & -> & Hbefore).
      split; [exact Hu|].
      exists (e :: before), after. split; [reflexivity|].
      intros e' Hin. apply elem_of_cons in Hin.
      destruct Hin as [-> | Hin]; [exact He | exact (Hbefore e' Hin)].
  - split.
    + intros Hnone editor Hin. apply list_elem_of_In in Hin.
      pose proof (find_none _ _ Hnone editor Hin) as Hb. simpl in Hb.
      apply bool_decide_eq_false in Hb. exact Hb.
    + intros Hall. induction visible as [|e rest IH]; [reflexivity|].
      simpl. rewrite bool_decide_eq_false_2
        by (apply Hall; apply list_elem_of_here).
      apply IH. intros editor Hin. apply Hall. apply list_elem_of_further.
      exact Hin.
Qed.

Lemma findEditor_sound_complete_witness :
  findEditor (visibleTextEditors host_sample) document_same_path = None.
Proof.
  apply (proj2 (proj2 (findEditor_sound_complete
                         (visibleTextEditors host_sample) document_same_path))).
  intros editor Hin. vm_compute in Hin.
  apply elem_of_cons in Hin. destruct Hin as [-> | Hin].
  - vm_compute. discriminate.
  - apply elem_of_nil in Hin. contradiction.
Defined.

(** X23: where the configuration decides, the host defaults play no
    part: with a truthy [indent_style] and a truthy [tab_width] or
    [indent_size], [fromEditorConfig] returns the same options for all
    defaults. *)
Theorem fromEditorConfig_ignores_defaults
    (config : JsObject) (defaults1 defaults2 : EditorSettings) :
  truthy (getProp config indent_style) = true ->
  truthy (getProp config tab_width) = true
  \/ truthy (getProp config indent_size) = true ->
  Utils.fromEditorConfig config defaults1 = Utils.fromEditorConfig config defaults2.
Proof.
  intros Hstyle Hsize. unfold Utils.fromEditorConfig, or_else. rewrite Hstyle.
  destruct (truthy (getProp config tab_width)); [reflexivity|].
  destruct Hsize as [Hw | Hs]; [discriminate|]. rewrite Hs. reflexivity.
Qed.

Lemma fromEditorConfig_ignores_defaults_witness :
  Utils.fromEditorConfig config_space_4 defaults_2_spaces
  = Utils.fromEditorConfig config_space_4 (mkSettings (JStr (js "auto")) JUndefined).
Proof.
  apply (fromEditorConfig_ignores_defaults config_space_4 defaults_2_spaces
           (mkSettings (JStr (js "auto")) JUndefined)).
  - vm_compute. reflexivity.
  - right. vm_compute. reflexivity.
Defined.

(** X24: a change of the host configuration replaces the defaults and
    keeps the map, and the next refresh of an editor whose document has
    an entry translates that entry under the new defaults. *)
Theorem config_change_then_refresh
    (host : Host) (w : World) (e : TextEditor) (config : JsObject) :
  getSettingsForDocument w (document e) = Some config ->
  _documentToConfigMap (watcher (_onConfigChanged host w))
  = _documentToConfigMap (watcher w)
  /\ getDefaultSettings (_onConfigChanged host w) = editorConfiguration host
  /\ editorOptions
       (applyEditorConfigToTextEditor (Some e) (_onConfigChanged host w))
     !! editorId e
     = Some (Utils.fromEditorConfig config (editorConfiguration host)).
Proof.
  intros Hcfg. split; [reflexivity|]. split; [reflexivity|].
  unfold applyEditorConfigToTextEditor.
  assert (Hget : getSettingsForDocument (_onConfigChanged host w) (document e)
                 = Some config) by exact Hcfg.
  rewrite Hget. cbn [emit editorOptions]. apply lookup_insert_eq.
Qed.

Lemma config_change_then_refresh_witness :
  _documentToConfigMap
    (watcher (_onConfigChanged host_sample
                (settle host_sample parse_sample (js "/work/.editorconfig")
                   world_initial).1))
  = _documentToConfigMap
      (watcher (settle host_sample parse_sample (js "/work/.editorconfig")
                  world_initial).1)
  /\ getDefaultSettings
       (_onConfigChanged host_sample
          (settle host_sample parse_sample (js "/work/.editorconfig")
             world_initial).1)
     = editorConfiguration host_sample
  /\ editorOptions
       (applyEditorConfigToTextEditor (Some editor_1)
          (_onConfigChanged host_sample
             (settle host_sample parse_sample (js "/work/.editorconfig")
                world_initial).1))
     !! editorId editor_1
     = Some (Utils.fromEditorConfig (normalizeIndentSize config_tab_8)
               (editorConfiguration host_sample)).
Proof.
  apply (config_change_then_refresh host_sample
           (settle host_sample parse_sample (js "/work/.editorconfig")
              world_initial).1
           editor_1 (normalizeIndentSize config_tab_8)).
  vm_compute. reflexivity.
Defined.

(** X25: constructing the watcher starts one parse for each titled open
    document, in their order, when none of their paths names a member of
    [Object.prototype], and none for an untitled one; it begins with an
    empty map, takes its defaults from the host, and leaves the options
    of the editors alone. *)
Theorem newDocumentWatcher_starts_titled_parses
    (host : Host) (options : gmap nat EditorSettings) :
  Forall namesNoInheritedMember (titledPaths (textDocuments host)) ->
  pendingPaths (newDocumentWatcher host options).2
  = titledPaths (textDocuments host)
  /\ length (newDocumentWatcher host options).2 = length (textDocuments host)
  /\ _documentToConfigMap (watcher (newDocumentWatcher host options).1) = ∅
  /\ _defaults (watcher (newDocumentWatcher host options).1)
     = editorConfiguration host
  /\ editorOptions (newDocumentWatcher host options).1 = options
  /\ trace (newDocumentWatcher host options).1 = [MapCleared].
Proof.
  intros _.
  unfold newDocumentWatcher. rewrite rebuild_started. cbn [fst snd].
  split; [apply pendingPaths_fresh|]. split; [apply length_fmap|].
  repeat split; reflexivity.
Qed.

Lemma newDocumentWatcher_starts_titled_parses_witness :
  pendingPaths (newDocumentWatcher host_sample ∅).2
  = titledPaths (textDocuments host_sample)
  /\ length (newDocumentWatcher host_sample ∅).2
     = length (textDocuments host_sample)
  /\ _documentToConfigMap (watcher (newDocumentWatcher host_sample ∅).1) = ∅
  /\ _defaults (watcher (newDocumentWatcher host_sample ∅).1)
     = editorConfiguration host_sample
  /\ editorOptions (newDocumentWatcher host_sample ∅).1 = ∅
  /\ trace (newDocumentWatcher host_sample ∅).1 = [MapCleared].
Proof.
  apply (newDocumentWatcher_starts_titled_parses host_sample ∅).
  repeat (apply Forall_cons; split; [vm_compute; reflexivity|]).
  apply Forall_nil_2.
Defined.

(* ===================================================================== *)
(** ** Further properties of [generateEditorConfig] *)
(* ===================================================================== *)

Section GenerateFacts.

Lemma hasOwnProperty_Some (o : JsObject) (k : jsstring) (v : JsVal) :
  o !! k = Some v -> hasOwnProperty o k = true /\ getProp o k = v.
Proof.
  intros H. unfold hasOwnProperty, getProp. rewrite H.
  split; [apply bool_decide_eq_true_2; eauto | reflexivity].
Qed.

Lemma hasOwnProperty_None (o : JsObject) (k : jsstring) :
  o !! k = None -> hasOwnProperty o k = false.
Proof.
  intros H. unfold hasOwnProperty. rewrite H.
  apply bool_decide_eq_false_2. intros [x Hx]. discriminate.
Qed.

Lemma fileContents_space (v : JsVal) :
  GenerateConcat.fileContents
    (<[indent_size := v]> (<[indent_style := JStr (js "space")]> ∅))
  = js "root = true" ++ lf ++ lf ++ js "[*]" ++ lf
    ++ js "indent_style = space" ++ lf
    ++ js "indent_size = " ++ toString v ++ lf.
Proof.
  set (o := <[indent_size := v]> (<[indent_style := JStr (js "space")]> ∅)).
  assert (H1 : o !! indent_style = Some (JStr (js "space"))).
  { unfold o. rewrite lookup_insert_ne by (vm_compute; discriminate).
    apply lookup_insert_eq. }
  assert (H2 : o !! indent_size = Some v) by apply lookup_insert_eq.
  assert (H3 : o !! tab_width = None).
  { unfold o. rewrite !lookup_insert_ne by (vm_compute; discriminate).
    apply lookup_empty. }
  apply hasOwnProperty_Some in H1. destruct H1 as [H1 G1].
  apply hasOwnProperty_Some in H2. destruct H2 as [H2 G2].
  apply hasOwnProperty_None in H3.
  unfold GenerateConcat.fileContents, settingLine. cbn [foldl].
  rewrite H1, H2, H3, G1, G2. cbn [toString].
  rewrite <- !app_assoc. reflexivity.
Qed.

Lemma fileContents_tab (v : JsVal) :
  GenerateConcat.fileContents
    (<[tab_width := v]> (<[indent_style := JStr (js "tab")]> ∅))
  = js "root = true" ++ lf ++ lf ++ js "[*]" ++ lf
    ++ js "indent_style = tab" ++ lf
    ++ js "tab_width = " ++ toString v ++ lf.
Proof.
  set (o := <[tab_width := v]> (<[indent_style := JStr (js "tab")]> ∅)).
  assert (H1 : o !! indent_style = Some (JStr (js "tab"))).
  { unfold o. rewrite lookup_insert_ne by (vm_compute; discriminate).
    apply lookup_insert_eq. }
  assert (H2 : o !! tab_width = Some v) by apply lookup_insert_eq.
  assert (H3 : o !! indent_size = None).
  { unfold o. rewrite !lookup_insert_ne by (vm_compute; discriminate).
    apply lookup_empty. }
  apply hasOwnProperty_Some in H1. destruct H1 as [H1 G1].
  apply hasOwnProperty_Some in H2. destruct H2 as [H2 G2].
  apply hasOwnProperty_None in H3.
  unfold GenerateConcat.fileContents, settingLine. cbn [foldl].
  rewrite H1, H2, H3, G1, G2. cbn [toString].
  rewrite <- !app_assoc. reflexivity.
Qed.

End GenerateFacts.

(** X26: none of the three versions of the command writes without a
    workspace folder or over an existing file: with a falsy [rootPath],
    or when the target exists, its only effect is one information
    message. *)
Theorem generateEditorConfig_never_overwrites
    (rootPath : JsVal) (node : EditorSettings) (targetExists : bool)
    (writeError : option jsstring) :
  truthy rootPath = false \/ targetExists = true ->
  Forall (fun generate =>
            exists message,
              generate rootPath node targetExists writeError
              = [ShowInformationMessage message])
    [Extension.generateEditorConfig; GenerateConcat.generateEditorConfig;
     GenerateJoin.generateEditorConfig].
Proof.
  intros Hcase.
  unfold Extension.generateEditorConfig, GenerateConcat.generateEditorConfig,
    GenerateJoin.generateEditorConfig.
  destruct (truthy rootPath) eqn:Hroot; cbn [negb].
  - destruct Hcase as [Hf | ->]; [discriminate|].
    repeat (apply Forall_cons; split;
            [cbv beta; rewrite Hroot; eexists; reflexivity|]).
    constructor.
  - repeat (apply Forall_cons; split;
            [cbv beta; rewrite Hroot; eexists; reflexivity|]).
    constructor.
Qed.

Lemma generateEditorConfig_never_overwrites_witness :
  Forall (fun generate =>
            exists message,
              generate (JStr (js "/work")) options_spaces_4 true None
              = [ShowInformationMessage message])
    [Extension.generateEditorConfig; GenerateConcat.generateEditorConfig;
     GenerateJoin.generateEditorConfig].
Proof.
  apply (generateEditorConfig_never_overwrites (JStr (js "/work"))
           options_spaces_4 true None).
  right. reflexivity.
Defined.

(** X27: what the command of the entry file writes.  In an open
    workspace without the target it writes one file,
    [rootPath/.editorconfig], and reports a write error if there is one.
    For [insertSpaces === true] the contents are the header, [indent_style
    = space] and [indent_size =] the resolved tab size; for [false] and
    ["auto"] they are the header, [indent_style = tab] and [tab_width =]
    the resolved tab size; for any other value the header alone. *)
Theorem generateEditorConfig_writes
    (rootPath t i : JsVal) (writeError : option jsstring) :
  truthy rootPath = true ->
  exists contents,
    Extension.generateEditorConfig rootPath (mkSettings t i) false writeError
    = WriteFile (toString rootPath ++ js "/.editorconfig") contents
      :: match writeError with
         | Some err => [ShowErrorMessage err]
         | None => []
         end
    /\ (i = JBool true ->
        contents = js "root = true" ++ lf ++ lf ++ js "[*]" ++ lf
                   ++ js "indent_style = space" ++ lf
                   ++ js "indent_size = " ++ toString (Utils.resolveTabSize t) ++ lf)
    /\ (i = JBool false \/ i = JStr (js "auto") ->
        contents = js "root = true" ++ lf ++ lf ++ js "[*]" ++ lf
                   ++ js "indent_style = tab" ++ lf
                   ++ js "tab_width = " ++ toString (Utils.resolveTabSize t) ++ lf)
    /\ (i <> JBool true -> i <> JBool false -> i <> JStr (js "auto") ->
        contents = js "root = true" ++ lf ++ lf ++ js "[*]" ++ lf).
Proof.
  intros Hroot. unfold Extension.generateEditorConfig. rewrite Hroot. cbn [negb].
  eexists. split; [reflexivity|]. unfold currentSettings. cbn [insertSpaces tabSize].
  split; [|split].
  - intros ->. rewrite toEditorConfig_true. apply fileContents_space.
  - intros Hfa. rewrite (toEditorConfig_false_or_auto t i Hfa).
    apply fileContents_tab.
  - intros Ht Hf Ha. rewrite toEditorConfig_other by assumption.
    vm_compute. reflexivity.
Qed.

Lemma generateEditorConfig_writes_witness :
  exists contents,
    Extension.generateEditorConfig (JStr (js "/work"))
      (mkSettings (JNum 4) (JBool true)) false None
    = WriteFile (toString (JStr (js "/work")) ++ js "/.editorconfig") contents
      :: match @None jsstring with
         | Some err => [ShowErrorMessage err]
         | None => []
         end
    /\ (JBool true = JBool true ->
        contents = js "root = true" ++ lf ++ lf ++ js "[*]" ++ lf
                   ++ js "indent_style = space" ++ lf
                   ++ js "indent_size = "
                   ++ toString (Utils.resolveTabSize (JNum 4)) ++ lf)
    /\ (JBool true = JBool false \/ JBool true = JStr (js "auto") ->
        contents = js "root = true" ++ lf ++ lf ++ js "[*]" ++ lf
                   ++ js "indent_style = tab" ++ lf
                   ++ js "tab_width = "
                   ++ toString (Utils.resolveTabSize (JNum 4)) ++ lf)
    /\ (JBool true <> JBool true -> JBool true <> JBool false ->
        JBool true <> JStr (js "auto") ->
        contents = js "root = true" ++ lf ++ lf ++ js "[*]" ++ lf).
Proof.
  apply (generateEditorConfig_writes (JStr (js "/work")) (JNum 4) (JBool true) None).
  reflexivity.
Defined.

(** The file written for four spaces. *)
Example generated_file_for_four_spaces :
  Extension.generateEditorConfig (JStr (js "/work"))
    (mkSettings (JNum 4) (JBool true)) false None
  = [WriteFile (js "/work/.editorconfig")
       (js "root = true" ++ lf ++ lf ++ js "[*]" ++ lf
        ++ js "indent_style = space" ++ lf ++ js "indent_size = 4" ++ lf)].
Proof. vm_compute. reflexivity. Qed.

(* ===================================================================== *)
(** ** The save handler *)
(* ===================================================================== *)

Section SaveFacts.

Variable host : Host.
Variable parse : jsstring -> option JsObject.




End SaveFacts.




(** On Windows a configuration file is recognised under a drive and
    backslashes. *)
Example basename_on_windows :
  basename true (js "C:\work\.editorconfig") = js ".editorconfig"
  /\ basename false (js "/work/.editorconfig") = js ".editorconfig"
  /\ basename false (js "/work/b.txt") = js "b.txt".
Proof. repeat split; vm_compute; reflexivity. Qed.
